(** * ip-analyzer: IPv4 address and CIDR arithmetic

    A shallow embedding of [src/ip_analyzer.cc] (classes [IPv4Address] and
    [IPAnalyzer]) and of the program of [src/main.cc], together with the
    properties of the specification that concern the IPv4 engine and further
    properties of the code.

    Conventions of the embedding:
    - every C++ integer is a [Z]; conversions to a fixed width are written
      out ([to_uint8], [to_uint32], [to_int32]);
    - a C++ exception is the [Throw] branch of [result];
    - a shift whose count is outside the width of its promoted left operand
      has no defined value in C++; the embedding makes it a [Throw
      undefined_shift] so that its absence can be stated and proved;
    - a [std::string_view] is the pair of the characters found at [data()]
      and the size of the view, because the code reads past the size. *)

From Stdlib Require Import ZArith String Ascii List Bool Lia DecimalString.
Import ListNotations.

Local Open Scope Z_scope.

(** ** Exceptions and results *)

Inductive exception : Type :=
| invalid_argument (what : string)
| out_of_range (what : string)
| undefined_shift.

Inductive result (A : Type) : Type :=
| Ok (a : A)
| Throw (e : exception).

Arguments Ok {A} a.
Arguments Throw {A} e.

Definition bind {A B : Type} (r : result A) (k : A -> result B) : result B :=
  match r with
  | Ok a => k a
  | Throw e => Throw e
  end.

Notation "x <- r ;; k" := (bind r (fun x => k))
  (at level 61, r at next level, right associativity).

Notation "' p <- r ;; k" := (bind r (fun x => let 'p := x in k))
  (at level 61, p pattern, r at next level, right associativity).

Definition is_ok {A : Type} (r : result A) : bool :=
  match r with Ok _ => true | Throw _ => false end.

(** ** Fixed-width integers *)

Module Cxx.

Definition INT_MIN : Z := - 2 ^ 31.
Definition INT_MAX : Z := 2 ^ 31 - 1.

Definition to_uint8 (v : Z) : Z := v mod 2 ^ 8.
Definition to_uint32 (v : Z) : Z := v mod 2 ^ 32.
Definition to_uint64 (v : Z) : Z := v mod 2 ^ 64.

(** Conversion to [int]: the value congruent modulo 2^32 in the signed range. *)
Definition to_int32 (v : Z) : Z := (v + 2 ^ 31) mod 2 ^ 32 - 2 ^ 31.

(** [~x] on [unsigned int]. *)
Definition not_u32 (x : Z) : Z := to_uint32 (Z.lnot x).

(** [x << n] and [x >> n] on [unsigned int], [n] an [int]. *)
Definition shl_u32 (x n : Z) : result Z :=
  if (0 <=? n) && (n <? 32) then Ok (to_uint32 (Z.shiftl x n))
  else Throw undefined_shift.

Definition shr_u32 (x n : Z) : result Z :=
  if (0 <=? n) && (n <? 32) then Ok (Z.shiftr x n)
  else Throw undefined_shift.

(** [x << n] on [unsigned long long]. *)
Definition shl_u64 (x n : Z) : result Z :=
  if (0 <=? n) && (n <? 64) then Ok (to_uint64 (Z.shiftl x n))
  else Throw undefined_shift.

(** *** Characters *)

Definition code (c : ascii) : Z := Z.of_N (N_of_ascii c).

(** [isspace] in the "C" locale. *)
Definition isspace (c : ascii) : bool :=
  (code c =? 32) || ((9 <=? code c) && (code c <=? 13)).

Definition isdigit (c : ascii) : bool :=
  (48 <=? code c) && (code c <=? 57).

Definition digit_value (c : ascii) : Z := code c - 48.

(** *** [std::stoi(str)] with base 10, as [strtol] followed by the range
    check of the [int] result. *)

Fixpoint skip_space (s : string) : string :=
  match s with
  | String c r => if isspace c then skip_space r else s
  | EmptyString => s
  end.

Fixpoint strtol_digits (acc : Z) (s : string) : Z :=
  match s with
  | String c r =>
      if isdigit c then strtol_digits (10 * acc + digit_value c) r else acc
  | EmptyString => acc
  end.

Definition starts_with_digit (s : string) : bool :=
  match s with
  | String c _ => isdigit c
  | EmptyString => false
  end.

Definition strip_sign (s : string) : bool * string :=
  match s with
  | String "-" r => (true, r)
  | String "+" r => (false, r)
  | _ => (false, s)
  end.

Definition stoi (str : string) : result Z :=
  let '(negative, body) := strip_sign (skip_space str) in
  if starts_with_digit body then
    let magnitude := strtol_digits 0 body in
    let value := if negative then - magnitude else magnitude in
    if (INT_MIN <=? value) && (value <=? INT_MAX) then Ok value
    else Throw (out_of_range "stoi")
  else Throw (invalid_argument "stoi").

(** *** [std::getline(stream, token, delim)] on a string stream

    The stream is the text not yet read.  A call fails when nothing is left;
    otherwise it yields the characters before the first delimiter and
    consumes the delimiter too. *)

Fixpoint split_at (delim : ascii) (s : string) : string * string :=
  match s with
  | EmptyString => (EmptyString, EmptyString)
  | String c r =>
      if Ascii.eqb c delim then (EmptyString, r)
      else let '(token, rest) := split_at delim r in (String c token, rest)
  end.

Definition getline (stream : string) (delim : ascii) : option (string * string) :=
  match stream with
  | EmptyString => None
  | _ => Some (split_at delim stream)
  end.

(** The tokens that successive [getline] calls yield until one fails. *)
Fixpoint getlines (delim : ascii) (stream : string) : list string :=
  match stream with
  | EmptyString => []
  | String c r =>
      if Ascii.eqb c delim then EmptyString :: getlines delim r
      else match getlines delim r with
           | [] => [String c EmptyString]
           | token :: tokens => String c token :: tokens
           end
  end.

(** *** [stream << n] for an [int]: decimal, a ['-'] in front when negative. *)

Definition print_int (n : Z) : string := NilZero.string_of_int (Z.to_int n).

(** *** [std::bitset<N>(v).to_string()]: the [N] low bits of [v], the
    highest first, as ['0'] and ['1']. *)

Definition bit_char (b : bool) : ascii := if b then "1"%char else "0"%char.

Fixpoint bitset_to_string (n : nat) (v : Z) : string :=
  match n with
  | O => EmptyString
  | S n' => String (bit_char (Z.testbit v (Z.of_nat n'))) (bitset_to_string n' v)
  end.

(** *** [std::string(const char* )]: the characters before the first NUL. *)

Fixpoint c_str (s : string) : string :=
  match s with
  | EmptyString => EmptyString
  | String c r => if Ascii.eqb c zero then EmptyString else String c (c_str r)
  end.

(** *** [std::string_view] *)

Record string_view : Type := {
  sv_data : string;   (* the characters stored from [data()] onwards *)
  sv_size : nat       (* [size()], at most the length of [sv_data] *)
}.

Definition view_of (s : string) : string_view :=
  {| sv_data := s; sv_size := String.length s |}.

Fixpoint take (n : nat) (s : string) : string :=
  match n, s with
  | S n', String c r => String c (take n' r)
  | _, _ => EmptyString
  end.

Fixpoint drop (n : nat) (s : string) : string :=
  match n, s with
  | S n', String _ r => drop n' r
  | _, _ => s
  end.

Fixpoint find_char (c : ascii) (s : string) : option nat :=
  match s with
  | EmptyString => None
  | String d r =>
      if Ascii.eqb d c then Some O
      else match find_char c r with
           | Some i => Some (S i)
           | None => None
           end
  end.

(** [v.find(c)]; [None] is [npos]. *)
Definition sv_find (v : string_view) (c : ascii) : option nat :=
  find_char c (take (sv_size v) (sv_data v)).

(** [v.substr(pos, count)]; a [count] of [None] is [npos]. *)
Definition sv_substr (v : string_view) (pos : nat) (count : option nat)
  : result string_view :=
  if (sv_size v <? pos)%nat then Throw (out_of_range "basic_string_view::substr")
  else
    let avail := (sv_size v - pos)%nat in
    Ok {| sv_data := drop pos (sv_data v);
          sv_size := match count with
                     | Some n => Nat.min n avail
                     | None => avail
                     end |}.

(** [std::string(v)]. *)
Definition sv_to_string (v : string_view) : string :=
  take (sv_size v) (sv_data v).

End Cxx.

(** ** [class IPv4Address] *)

Module IPv4Address.

(** [std::array<uint8_t, 4> octets_]. *)
Record t : Type := {
  octet0 : Z;
  octet1 : Z;
  octet2 : Z;
  octet3 : Z
}.

(** [octets_[i]], for [i < 4]. *)
Definition get (a : t) (i : nat) : Z :=
  match i with
  | 0%nat => octet0 a
  | 1%nat => octet1 a
  | 2%nat => octet2 a
  | _ => octet3 a
  end.

(** [octets_[i] = v], for [i < 4]. *)
Definition set (a : t) (i : nat) (v : Z) : t :=
  match i with
  | 0%nat => {| octet0 := v; octet1 := octet1 a; octet2 := octet2 a; octet3 := octet3 a |}
  | 1%nat => {| octet0 := octet0 a; octet1 := v; octet2 := octet2 a; octet3 := octet3 a |}
  | 2%nat => {| octet0 := octet0 a; octet1 := octet1 a; octet2 := v; octet3 := octet3 a |}
  | _ => {| octet0 := octet0 a; octet1 := octet1 a; octet2 := octet2 a; octet3 := v |}
  end.

(** The array before the constructor body has written to it; its content is
    never read, the constructor throws unless all four slots were written. *)
Definition unwritten : t :=
  {| octet0 := 0; octet1 := 0; octet2 := 0; octet3 := 0 |}.

(** The body of the [while (std::getline(iss, octet, '.'))] loop, run over
    the tokens the stream yields; [i] and [octets] are the loop state. *)
Fixpoint parse_loop (tokens : list string) (i : nat) (octets : t)
  : result (nat * t) :=
  match tokens with
  | [] => Ok (i, octets)
  | octet :: tokens' =>
      if (4 <=? i)%nat then
        Throw (invalid_argument "Invalid IP address format: too many octets")
      else
        value <- Cxx.stoi octet ;;
        if (value <? 0) || (255 <? value) then
          Throw (invalid_argument "Invalid IP address octet value")
        else parse_loop tokens' (S i) (set octets i (Cxx.to_uint8 value))
  end.

(** [IPv4Address::IPv4Address(std::string_view address)].  The stream is
    built from [address.data()], a [const char*]: the size of the view is not
    consulted. *)
Definition of_string_view (address : Cxx.string_view) : result t :=
  let iss := Cxx.c_str (Cxx.sv_data address) in
  '(i, octets) <- parse_loop (Cxx.getlines "." iss) 0 unwritten ;;
  if negb (i =? 4)%nat then
    Throw (invalid_argument "Invalid IP address format: not enough octets")
  else Ok octets.

(** [IPv4Address::IPv4Address(uint32_t address)]. *)
Definition of_uint32 (address : Z) : t :=
  {| octet0 := Cxx.to_uint8 (Z.land (Z.shiftr address 24) 0xFF);
     octet1 := Cxx.to_uint8 (Z.land (Z.shiftr address 16) 0xFF);
     octet2 := Cxx.to_uint8 (Z.land (Z.shiftr address 8) 0xFF);
     octet3 := Cxx.to_uint8 (Z.land address 0xFF) |}.

(** [IPv4Address::to_string()]. *)
Definition to_string (a : t) : string :=
  (Cxx.print_int (octet0 a) ++ "." ++ Cxx.print_int (octet1 a) ++ "."
   ++ Cxx.print_int (octet2 a) ++ "." ++ Cxx.print_int (octet3 a))%string.

(** [IPv4Address::to_binary_string()]. *)
Definition to_binary_string (a : t) : string :=
  (Cxx.bitset_to_string 8 (octet0 a) ++ Cxx.bitset_to_string 8 (octet1 a)
   ++ Cxx.bitset_to_string 8 (octet2 a) ++ Cxx.bitset_to_string 8 (octet3 a))%string.

(** [IPv4Address::to_uint32()]: the octets are promoted to [int], shifted and
    or-ed as [int], and the result is converted to [uint32_t]. *)
Definition to_uint32 (a : t) : Z :=
  Cxx.to_uint32
    (Z.lor (Z.lor (Z.lor (Cxx.to_int32 (Z.shiftl (octet0 a) 24))
                         (Cxx.to_int32 (Z.shiftl (octet1 a) 16)))
                  (Cxx.to_int32 (Z.shiftl (octet2 a) 8)))
           (octet3 a)).

End IPv4Address.

(** ** [class IPAnalyzer] *)

Module IPAnalyzer.

Record t : Type := {
  ip_ : IPv4Address.t;
  cidr_ : Z             (* [uint8_t] *)
}.

(** [IPAnalyzer::IPAnalyzer(std::string_view ip_cidr)]: the member
    initialiser builds [ip_] first, then the body runs. *)
Definition ctor (ip_cidr : Cxx.string_view) : result t :=
  head <- Cxx.sv_substr ip_cidr 0 (Cxx.sv_find ip_cidr "/") ;;
  ip <- IPv4Address.of_string_view head ;;
  match Cxx.sv_find ip_cidr "/" with
  | None => Throw (invalid_argument "Invalid IP/CIDR format")
  | Some slash_pos =>
      tail <- Cxx.sv_substr ip_cidr (slash_pos + 1) None ;;
      n <- Cxx.stoi (Cxx.sv_to_string tail) ;;
      let cidr := Cxx.to_uint8 n in
      if 32 <? cidr then Throw (invalid_argument "Invalid CIDR value")
      else Ok {| ip_ := ip; cidr_ := cidr |}
  end.

Definition get_ip (a : t) : IPv4Address.t := ip_ a.

Definition get_network (a : t) : result IPv4Address.t :=
  if cidr_ a =? 0 then IPv4Address.of_string_view (Cxx.view_of "0.0.0.0")
  else
    let ip := IPv4Address.to_uint32 (ip_ a) in
    mask <- (if cidr_ a =? 32 then Ok 0xFFFFFFFF
             else shifted <- Cxx.shr_u32 0xFFFFFFFF (cidr_ a) ;;
                  Ok (Cxx.not_u32 shifted)) ;;
    Ok (IPv4Address.of_uint32 (Z.land ip mask)).

Definition get_netmask (a : t) : result IPv4Address.t :=
  if cidr_ a =? 32 then IPv4Address.of_string_view (Cxx.view_of "255.255.255.255")
  else
    mask <- (if cidr_ a =? 0 then Ok 0
             else Cxx.shl_u32 (Cxx.not_u32 0) (32 - cidr_ a)) ;;
    Ok (IPv4Address.of_uint32 mask).

Definition get_broadcast (a : t) : result IPv4Address.t :=
  if cidr_ a =? 32 then Ok (ip_ a)
  else if cidr_ a =? 0 then
    IPv4Address.of_string_view (Cxx.view_of "255.255.255.255")
  else
    let ip_int := IPv4Address.to_uint32 (ip_ a) in
    mask <- Cxx.shl_u32 (Cxx.not_u32 0) (32 - cidr_ a) ;;
    Ok (IPv4Address.of_uint32 (Z.lor ip_int (Cxx.not_u32 mask))).

Definition get_host_range (a : t) : result (IPv4Address.t * IPv4Address.t) :=
  if cidr_ a =? 32 then Ok (ip_ a, ip_ a)
  else
    network <- get_network a ;;
    let network_int := IPv4Address.to_uint32 network in
    broadcast <- get_broadcast a ;;
    let broadcast_int := IPv4Address.to_uint32 broadcast in
    Ok (IPv4Address.of_uint32 (Cxx.to_uint32 (network_int + 1)),
        IPv4Address.of_uint32 (Cxx.to_uint32 (broadcast_int - 1))).

Definition get_num_hosts (a : t) : result Z :=
  if cidr_ a =? 32 then Ok 1
  else if cidr_ a =? 31 then Ok 2
  else if cidr_ a =? 0 then Ok 0xFFFFFFFE
  else
    pow <- Cxx.shl_u64 1 (32 - cidr_ a) ;;
    Ok (Cxx.to_uint32 (Cxx.to_uint64 (pow - 2))).

Definition is_private (a : t) : bool :=
  let ip := IPv4Address.to_uint32 (ip_ a) in
  ((0x0A000000 <=? ip) && (ip <=? 0x0AFFFFFF))
  || ((0xAC100000 <=? ip) && (ip <=? 0xAC1FFFFF))
  || ((0xC0A80000 <=? ip) && (ip <=? 0xC0A8FFFF)).

Definition get_cidr (a : t) : Z := cidr_ a.

(** Construction from the text of a [std::string] or of a literal, as
    [main.cc] and the tests do it. *)
Definition of_string (s : string) : result t := ctor (Cxx.view_of s).

End IPAnalyzer.

(** ** [main.cc]

    What the program writes is kept as the sequence of its print calls, each
    with the texts it is given; colours, padding and the glyph of the bar are
    left to [fmt]. *)

Module Main.

Definition kWidth : Z := 80.

(** The lambda [copper_gradient] of [PrintCopperBar]: the three [int]s that
    are handed to [fmt::rgb]; [/] on [int] rounds towards zero. *)
Definition copper_gradient (i : Z) : Z * Z * Z :=
  let kMaxColor := 255 in
  let r := Z.min kMaxColor (Z.quot (i * kMaxColor) kWidth) in
  let g := Z.min kMaxColor (Z.quot ((kWidth - i) * kMaxColor) kWidth) in
  let b := Z.min kMaxColor
             (Z.quot (Z.abs (Z.quot kWidth 2 - i) * 2 * kMaxColor) kWidth) in
  (r, g, b).

Inductive event : Type :=
| Prompt (text : string)
| CopperBar
| Header (text : string)
| Row (label value binary : string)
| ErrorLine (message : string).

(** A computation that prints and may throw: what was printed, and the
    result. *)
Definition io (A : Type) : Type := (list event * result A)%type.

Definition ret {A : Type} (a : A) : io A := ([], Ok a).

Definition print (e : event) : io unit := ([e], Ok tt).

Definition lift {A : Type} (r : result A) : io A := ([], r).

Definition bind_io {A B : Type} (m : io A) (k : A -> io B) : io B :=
  match m with
  | (out, Ok a) => let '(out', r) := k a in ((out ++ out')%list, r)
  | (out, Throw e) => (out, Throw e)
  end.

Definition PrintCopperBar : io unit := print CopperBar.

Definition PrintHeader (text : string) : io unit :=
  bind_io PrintCopperBar (fun _ =>
  bind_io (print (Header text)) (fun _ => PrintCopperBar)).

Definition PrintRow (label value binary : string) : io unit :=
  print (Row label value binary).

Definition PrintPrompt : io unit :=
  print (Prompt "Enter IP address with CIDR (e.g., 192.168.0.1/24): ").

Definition PrintError (message : string) : io unit := print (ErrorLine message).

(** The initialiser of [rows] in [PrintResults], its elements evaluated in
    the order they are written; [first] and [last] are the host range taken
    beforehand. *)
Definition result_rows (a : IPAnalyzer.t) (first last : IPv4Address.t)
  : result (list (string * string * string)) :=
  network <- IPAnalyzer.get_network a ;;
  network' <- IPAnalyzer.get_network a ;;
  netmask <- IPAnalyzer.get_netmask a ;;
  netmask' <- IPAnalyzer.get_netmask a ;;
  broadcast <- IPAnalyzer.get_broadcast a ;;
  hosts <- IPAnalyzer.get_num_hosts a ;;
  Ok [("IP Address", IPv4Address.to_string (IPAnalyzer.get_ip a),
       IPv4Address.to_binary_string (IPAnalyzer.get_ip a));
      ("Network Address", IPv4Address.to_string network,
       IPv4Address.to_binary_string network');
      ("Netmask", IPv4Address.to_string netmask,
       IPv4Address.to_binary_string netmask');
      ("CIDR Notation", "/" ++ Cxx.print_int (IPAnalyzer.get_cidr a), "");
      ("Broadcast Address", IPv4Address.to_string broadcast, "");
      ("Usable IP Range",
       if Z.eqb (IPAnalyzer.get_cidr a) 32
       then IPv4Address.to_string (IPAnalyzer.get_ip a)
       else IPv4Address.to_string first ++ " - " ++ IPv4Address.to_string last,
       "");
      ("Number of Hosts", Cxx.print_int hosts, "");
      ("Private IP", if IPAnalyzer.is_private a then "Yes" else "No", "")]%string.

Fixpoint print_rows (rows : list (string * string * string)) : io unit :=
  match rows with
  | [] => ret tt
  | (label, value, binary) :: rows' =>
      bind_io (PrintRow label value binary) (fun _ => print_rows rows')
  end.

Definition PrintResults (a : IPAnalyzer.t) : io unit :=
  bind_io (PrintHeader "IP Analysis Results") (fun _ =>
  bind_io (lift (IPAnalyzer.get_host_range a)) (fun '(first, last) =>
  bind_io (lift (result_rows a first last)) (fun rows =>
  bind_io (print_rows rows) (fun _ => PrintCopperBar)))).

(** [e.what()]; for the exceptions of [stoi] the text is the one libstdc++
    gives them. *)
Definition what (e : exception) : string :=
  match e with
  | invalid_argument w => w
  | out_of_range w => w
  | undefined_shift => EmptyString
  end.

(** [IPAnalyzerApp::Run()]; [input] is the line [std::getline] reads from
    [std::cin], [None] when it fails.  The handler catches the C++
    exceptions; a shift without a defined value is not one of them. *)
Definition Run (input : option string) : io Z :=
  bind_io PrintPrompt (fun _ =>
  match input with
  | None => ret 1
  | Some line =>
      match bind_io (lift (IPAnalyzer.of_string line)) PrintResults with
      | (out, Ok _) => (out, Ok 0)
      | (out, Throw undefined_shift) => (out, Throw undefined_shift)
      | (out, Throw e) =>
          bind_io (out, Ok tt) (fun _ =>
          bind_io (PrintError (what e)) (fun _ => ret 1))
      end
  end).

End Main.

Definition ipv4 (a b c d : Z) : IPv4Address.t :=
  {| IPv4Address.octet0 := a; IPv4Address.octet1 := b;
     IPv4Address.octet2 := c; IPv4Address.octet3 := d |}.

Definition analyzer (ip : IPv4Address.t) (p : Z) : IPAnalyzer.t :=
  {| IPAnalyzer.ip_ := ip; IPAnalyzer.cidr_ := p |}.

(** ** Well-formed values *)

Definition octet_ok (v : Z) : Prop := 0 <= v <= 255.

Definition wf_address (a : IPv4Address.t) : Prop :=
  octet_ok (IPv4Address.octet0 a) /\ octet_ok (IPv4Address.octet1 a) /\
  octet_ok (IPv4Address.octet2 a) /\ octet_ok (IPv4Address.octet3 a).

Definition wf_analyzer (a : IPAnalyzer.t) : Prop :=
  wf_address (IPAnalyzer.ip_ a) /\ 0 <= IPAnalyzer.cidr_ a <= 32.

(** The value of an address read as a big-endian integer. *)
Definition be_value (a : IPv4Address.t) : Z :=
  IPv4Address.octet0 a * 2 ^ 24 + IPv4Address.octet1 a * 2 ^ 16
  + IPv4Address.octet2 a * 2 ^ 8 + IPv4Address.octet3 a.

(** * Fixed-width arithmetic *)

Section FixedWidth.

Lemma to_uint32_small x : 0 <= x < 2 ^ 32 -> Cxx.to_uint32 x = x.
Proof. intros H. unfold Cxx.to_uint32. now apply Z.mod_small. Qed.

Lemma to_uint32_range x : 0 <= Cxx.to_uint32 x < 2 ^ 32.
Proof. unfold Cxx.to_uint32. apply Z.mod_pos_bound. lia. Qed.

Lemma to_uint8_small x : 0 <= x <= 255 -> Cxx.to_uint8 x = x.
Proof.
  intros H. unfold Cxx.to_uint8. apply Z.mod_small.
  change (2 ^ 8) with 256. lia.
Qed.

Lemma to_uint32_to_int32 v : Cxx.to_uint32 (Cxx.to_int32 v) = Cxx.to_uint32 v.
Proof.
  unfold Cxx.to_uint32, Cxx.to_int32.
  change (2 ^ 32) with 4294967296. change (2 ^ 31) with 2147483648.
  Z.div_mod_to_equations. lia.
Qed.

Lemma to_uint32_lor a b :
  Cxx.to_uint32 (Z.lor a b) = Z.lor (Cxx.to_uint32 a) (Cxx.to_uint32 b).
Proof.
  unfold Cxx.to_uint32. rewrite <- !Z.land_ones by lia.
  apply Z.land_lor_distr_l.
Qed.

Lemma testbit_below_pow2 lo k n : 0 <= lo < 2 ^ k -> k <= n -> Z.testbit lo n = false.
Proof.
  intros Hlo Hn.
  destruct (Z.lt_ge_cases k 0) as [Hk | Hk].
  - rewrite Z.pow_neg_r in Hlo by assumption. lia.
  - rewrite <- (Z.mod_small lo (2 ^ k)) by assumption.
    apply Z.mod_pow2_bits_high. lia.
Qed.

Lemma land_shifted_low hi lo k :
  0 <= k -> 0 <= lo < 2 ^ k -> Z.land (hi * 2 ^ k) lo = 0.
Proof.
  intros Hk Hlo. apply Z.bits_inj'. intros n Hn.
  rewrite Z.land_spec, Z.bits_0, <- Z.shiftl_mul_pow2 by assumption.
  destruct (Z.lt_ge_cases n k) as [Hlt | Hge].
  - now rewrite Z.shiftl_spec_low.
  - rewrite (testbit_below_pow2 lo k n) by assumption. apply andb_false_r.
Qed.

Lemma lor_shifted_low hi lo k :
  0 <= k -> 0 <= lo < 2 ^ k -> Z.lor (hi * 2 ^ k) lo = hi * 2 ^ k + lo.
Proof.
  intros Hk Hlo.
  rewrite <- (Z.add_lor_land (hi * 2 ^ k) lo), land_shifted_low by assumption.
  lia.
Qed.

Lemma land_le_l x y : 0 <= x -> Z.land x y <= x.
Proof.
  intros Hx.
  assert (H : 0 <= Z.land x (Z.lnot y)) by (apply Z.land_nonneg; now left).
  rewrite <- Z.sub_land_same_l in H. lia.
Qed.

Lemma lor_ge_l x y : 0 <= y -> x <= Z.lor x y.
Proof.
  intros Hy.
  assert (H : 0 <= Z.land y (Z.lnot x)) by (apply Z.land_nonneg; now left).
  rewrite <- Z.sub_lor_l_same_r, Z.lor_comm in H. lia.
Qed.

Lemma lor_range x y :
  0 <= x < 2 ^ 32 -> 0 <= y < 2 ^ 32 -> 0 <= Z.lor x y < 2 ^ 32.
Proof.
  intros Hx Hy. split.
  - apply Z.lor_nonneg; lia.
  - destruct (Z.eq_dec (Z.lor x y) 0) as [-> | Hnz]; [lia |].
    assert (Hpos : 0 < Z.lor x y) by (pose proof (proj2 (Z.lor_nonneg x y)); lia).
    apply Z.log2_lt_pow2; [assumption |].
    rewrite Z.log2_lor by lia.
    apply Z.max_lub_lt.
    + destruct (Z.eq_dec x 0) as [-> | Hx0]; [reflexivity |].
      apply Z.log2_lt_pow2; lia.
    + destruct (Z.eq_dec y 0) as [-> | Hy0]; [reflexivity |].
      apply Z.log2_lt_pow2; lia.
Qed.

End FixedWidth.

(** * Addresses as 32-bit integers *)

Section AddressValue.

Lemma be_value_range a : wf_address a -> 0 <= be_value a < 2 ^ 32.
Proof.
  unfold wf_address, octet_ok, be_value. intros (H0 & H1 & H2 & H3).
  change (2 ^ 32) with 4294967296. change (2 ^ 24) with 16777216.
  change (2 ^ 16) with 65536. change (2 ^ 8) with 256. lia.
Qed.

Lemma lor_shiftl_low hi lo :
  0 <= lo < 2 ^ 8 -> Z.lor (Z.shiftl hi 8) lo = hi * 2 ^ 8 + lo.
Proof.
  intros Hlo. rewrite Z.shiftl_mul_pow2 by lia. apply lor_shifted_low; lia.
Qed.

Lemma lor_octets a b c d :
  octet_ok a -> octet_ok b -> octet_ok c -> octet_ok d ->
  Z.lor (Z.lor (Z.lor (Z.shiftl a 24) (Z.shiftl b 16)) (Z.shiftl c 8)) d
  = a * 2 ^ 24 + b * 2 ^ 16 + c * 2 ^ 8 + d.
Proof.
  unfold octet_ok. intros Ha Hb Hc Hd.
  replace (Z.shiftl a 24) with (Z.shiftl (Z.shiftl (Z.shiftl a 8) 8) 8)
    by (rewrite !Z.shiftl_shiftl by lia; reflexivity).
  replace (Z.shiftl b 16) with (Z.shiftl (Z.shiftl b 8) 8)
    by (rewrite !Z.shiftl_shiftl by lia; reflexivity).
  rewrite <- !Z.shiftl_lor.
  change (2 ^ 24) with (2 ^ 8 * 2 ^ 8 * 2 ^ 8). change (2 ^ 16) with (2 ^ 8 * 2 ^ 8).
  rewrite !lor_shiftl_low by (change (2 ^ 8) with 256; lia).
  ring.
Qed.

(** [to_uint32] reads the four octets as one big-endian integer. *)
Lemma to_uint32_be_value a : wf_address a -> IPv4Address.to_uint32 a = be_value a.
Proof.
  intros Hwf. pose proof (be_value_range a Hwf) as Hr.
  destruct Hwf as (H0 & H1 & H2 & H3).
  unfold IPv4Address.to_uint32.
  rewrite <- (to_uint32_small (be_value a)) by assumption.
  unfold be_value. rewrite <- lor_octets by assumption.
  rewrite !to_uint32_lor, !to_uint32_to_int32. reflexivity.
Qed.

Lemma to_uint32_range_wf a : wf_address a -> 0 <= IPv4Address.to_uint32 a < 2 ^ 32.
Proof. intros H. rewrite to_uint32_be_value by assumption. now apply be_value_range. Qed.

(** The octets [IPv4Address(uint32_t)] stores are the base-256 digits. *)
Lemma of_uint32_octets x :
  IPv4Address.of_uint32 x
  = {| IPv4Address.octet0 := (x / 2 ^ 24) mod 256;
       IPv4Address.octet1 := (x / 2 ^ 16) mod 256;
       IPv4Address.octet2 := (x / 2 ^ 8) mod 256;
       IPv4Address.octet3 := x mod 256 |}.
Proof.
  unfold IPv4Address.of_uint32, Cxx.to_uint8.
  change 0xFF with (Z.ones 8).
  rewrite !Z.land_ones, !Z.shiftr_div_pow2 by lia.
  change (2 ^ 8) with 256. rewrite !Z.mod_mod by lia.
  reflexivity.
Qed.

Lemma of_uint32_wf x : wf_address (IPv4Address.of_uint32 x).
Proof.
  rewrite of_uint32_octets. unfold wf_address, octet_ok. cbn.
  repeat split; try apply Z.mod_pos_bound; try lia;
    match goal with |- ?v mod 256 <= 255 => pose proof (Z.mod_pos_bound v 256); lia end.
Qed.

(** Storing a 32-bit value and reading it back gives the same value. *)
Lemma to_uint32_of_uint32 x :
  0 <= x < 2 ^ 32 -> IPv4Address.to_uint32 (IPv4Address.of_uint32 x) = x.
Proof.
  intros Hx. rewrite to_uint32_be_value by apply of_uint32_wf.
  rewrite of_uint32_octets. unfold be_value. cbn.
  change (2 ^ 32) with 4294967296 in Hx. change (2 ^ 24) with 16777216.
  change (2 ^ 16) with 65536. change (2 ^ 8) with 256.
  Z.div_mod_to_equations. lia.
Qed.

(** Reading an address and storing the value gives the same address. *)
Lemma of_uint32_to_uint32 a :
  wf_address a -> IPv4Address.of_uint32 (IPv4Address.to_uint32 a) = a.
Proof.
  intros Hwf. rewrite to_uint32_be_value by assumption.
  rewrite of_uint32_octets. destruct a as [a b c d].
  destruct Hwf as (H0 & H1 & H2 & H3). unfold octet_ok, be_value in *. cbn in *.
  change (2 ^ 24) with 16777216. change (2 ^ 16) with 65536. change (2 ^ 8) with 256.
  f_equal; Z.div_mod_to_equations; lia.
Qed.

End AddressValue.

(** * The derivations in closed form *)

(** The 32-bit mask with the leading [p] bits set, and its complement. *)
Definition netmask_value (p : Z) : Z := 2 ^ 32 - 2 ^ (32 - p).
Definition hostmask_value (p : Z) : Z := 2 ^ (32 - p) - 1.

Section Masks.

Lemma pow2_le_32 n : 0 <= n <= 32 -> 0 < 2 ^ n <= 2 ^ 32.
Proof.
  intros Hn. split.
  - apply Z.pow_pos_nonneg; lia.
  - apply Z.pow_le_mono_r; lia.
Qed.

Lemma pow2_lt_32 n : 0 <= n < 32 -> 0 < 2 ^ n < 2 ^ 32.
Proof.
  intros Hn. split.
  - apply Z.pow_pos_nonneg; lia.
  - apply Z.pow_lt_mono_r; lia.
Qed.

Lemma not_u32_value x : 0 <= x < 2 ^ 32 -> Cxx.not_u32 x = 2 ^ 32 - 1 - x.
Proof.
  intros Hx. unfold Cxx.not_u32, Cxx.to_uint32.
  rewrite Z.lnot_eq_pred_opp.
  symmetry. apply Z.mod_unique_pos with (q := -1); lia.
Qed.

Lemma shl_all_ones n :
  0 <= n < 32 -> Cxx.shl_u32 (Cxx.not_u32 0) n = Ok (2 ^ 32 - 2 ^ n).
Proof.
  intros Hn. unfold Cxx.shl_u32.
  replace ((0 <=? n) && (n <? 32)) with true by (symmetry; apply andb_true_iff; lia).
  f_equal. rewrite not_u32_value by lia.
  unfold Cxx.to_uint32. rewrite Z.shiftl_mul_pow2 by lia.
  pose proof (pow2_lt_32 n Hn) as Hp.
  symmetry. apply Z.mod_unique_pos with (q := 2 ^ n - 1); [lia | ring].
Qed.

Lemma shr_all_ones n :
  0 <= n < 32 -> Cxx.shr_u32 0xFFFFFFFF n = Ok (2 ^ (32 - n) - 1).
Proof.
  intros Hn. unfold Cxx.shr_u32.
  replace ((0 <=? n) && (n <? 32)) with true by (symmetry; apply andb_true_iff; lia).
  f_equal. rewrite Z.shiftr_div_pow2 by lia.
  pose proof (pow2_lt_32 n Hn) as Hp.
  symmetry. apply Z.div_unique_pos with (r := 2 ^ n - 1); [lia |].
  replace (2 ^ n * (2 ^ (32 - n) - 1) + (2 ^ n - 1))
    with (2 ^ n * 2 ^ (32 - n) - 1) by ring.
  rewrite <- Z.pow_add_r by lia. replace (n + (32 - n)) with 32 by lia.
  reflexivity.
Qed.

Lemma netmask_value_range p : 0 <= p <= 32 -> 0 <= netmask_value p < 2 ^ 32.
Proof.
  intros Hp. unfold netmask_value.
  pose proof (pow2_le_32 (32 - p)). lia.
Qed.

Lemma hostmask_value_range p : 0 <= p <= 32 -> 0 <= hostmask_value p < 2 ^ 32.
Proof.
  intros Hp. unfold hostmask_value.
  pose proof (pow2_le_32 (32 - p)). lia.
Qed.

End Masks.

Section ClosedForms.

Lemma zero_literal :
  IPv4Address.of_string_view (Cxx.view_of "0.0.0.0") = Ok (ipv4 0 0 0 0).
Proof. reflexivity. Qed.

Lemma ones_literal :
  IPv4Address.of_string_view (Cxx.view_of "255.255.255.255")
  = Ok (ipv4 255 255 255 255).
Proof. reflexivity. Qed.

Ltac split_cidr a :=
  destruct (Z.eqb_spec (IPAnalyzer.cidr_ a) 32);
  destruct (Z.eqb_spec (IPAnalyzer.cidr_ a) 0); try lia.

Lemma get_netmask_closed a :
  0 <= IPAnalyzer.cidr_ a <= 32 ->
  IPAnalyzer.get_netmask a
  = Ok (IPv4Address.of_uint32 (netmask_value (IPAnalyzer.cidr_ a))).
Proof.
  intros Hp. unfold IPAnalyzer.get_netmask. split_cidr a.
  - rewrite ones_literal, e. reflexivity.
  - rewrite e. reflexivity.
  - rewrite shl_all_ones by lia. reflexivity.
Qed.

Lemma get_network_closed a :
  0 <= IPAnalyzer.cidr_ a <= 32 ->
  IPAnalyzer.get_network a
  = Ok (IPv4Address.of_uint32
          (Z.land (IPv4Address.to_uint32 (IPAnalyzer.ip_ a))
                  (netmask_value (IPAnalyzer.cidr_ a)))).
Proof.
  intros Hp. unfold IPAnalyzer.get_network. split_cidr a.
  - rewrite e. reflexivity.
  - rewrite zero_literal, e. change (netmask_value 0) with 0.
    rewrite Z.land_0_r. reflexivity.
  - rewrite shr_all_ones by lia. cbn [bind].
    rewrite not_u32_value.
    + unfold netmask_value. do 3 f_equal. lia.
    + pose proof (pow2_lt_32 (32 - IPAnalyzer.cidr_ a)). lia.
Qed.

Lemma lor_all_ones x : 0 <= x < 2 ^ 32 -> Z.lor x (2 ^ 32 - 1) = 2 ^ 32 - 1.
Proof.
  intros Hx.
  pose proof (lor_range x (2 ^ 32 - 1) Hx ltac:(lia)).
  pose proof (lor_ge_l (2 ^ 32 - 1) x ltac:(lia)) as Hge.
  rewrite Z.lor_comm in Hge. lia.
Qed.

Lemma get_broadcast_closed a :
  wf_analyzer a ->
  IPAnalyzer.get_broadcast a
  = Ok (IPv4Address.of_uint32
          (Z.lor (IPv4Address.to_uint32 (IPAnalyzer.ip_ a))
                 (hostmask_value (IPAnalyzer.cidr_ a)))).
Proof.
  intros [Hip Hp]. unfold IPAnalyzer.get_broadcast. split_cidr a.
  - rewrite e. change (hostmask_value 32) with 0.
    rewrite Z.lor_0_r, of_uint32_to_uint32 by assumption. reflexivity.
  - rewrite ones_literal, e. change (hostmask_value 0) with (2 ^ 32 - 1).
    rewrite lor_all_ones by now apply to_uint32_range_wf. reflexivity.
  - rewrite shl_all_ones by lia. cbn [bind].
    rewrite not_u32_value.
    + unfold hostmask_value. do 3 f_equal. lia.
    + pose proof (pow2_lt_32 (32 - IPAnalyzer.cidr_ a)). lia.
Qed.

End ClosedForms.

(** * Text *)

(** Every character of [s] satisfies [P]. *)
Fixpoint all_chars (P : ascii -> bool) (s : string) : bool :=
  match s with
  | EmptyString => true
  | String c r => P c && all_chars P r
  end.

Definition is_not (d : ascii) (c : ascii) : bool := negb (Ascii.eqb c d).

(** The number a string of decimal digits denotes. *)
Fixpoint decimal_from (acc : Z) (g : string) : Z :=
  match g with
  | EmptyString => acc
  | String c r => decimal_from (10 * acc + Cxx.digit_value c) r
  end.

Definition decimal (g : string) : Z := decimal_from 0 g.

(** [g] is a decimal group: one digit at least, digits only. *)
Definition decimal_group (g : string) : Prop :=
  g <> EmptyString /\ all_chars Cxx.isdigit g = true.

(** [g] is a decimal group that denotes [v], an integer in [0,255]. *)
Definition octet_text (g : string) (v : Z) : Prop :=
  decimal_group g /\ decimal g = v /\ v <= 255.

(** [s] consists of four decimal groups separated by ['.'], which denote the
    integers [a], [b], [c] and [d] of [0,255]. *)
Definition dotted_quad (s : string) (a b c d : Z) : Prop :=
  exists g0 g1 g2 g3,
    s = (g0 ++ "." ++ g1 ++ "." ++ g2 ++ "." ++ g3)%string
    /\ octet_text g0 a /\ octet_text g1 b /\ octet_text g2 c /\ octet_text g3 d.

Definition digit_or_dot (c : ascii) : bool := Cxx.isdigit c || Ascii.eqb c ".".

(** [g] reads as the integer [v] the way [strtol] reads a text: white space,
    an optional sign, a decimal group, and then anything that does not start
    with a digit. *)
Definition lenient_integer (g : string) (v : Z) : Prop :=
  exists ws sign digits rest,
    g = (ws ++ sign ++ digits ++ rest)%string
    /\ all_chars Cxx.isspace ws = true
    /\ decimal_group digits
    /\ Cxx.starts_with_digit rest = false
    /\ (((sign = EmptyString \/ sign = "+"%string) /\ v = decimal digits)
        \/ (sign = "-"%string /\ v = - decimal digits)).

(** [g] holds no dot and reads as an integer of [0,255]. *)
Definition lenient_octet (g : string) (v : Z) : Prop :=
  all_chars (is_not ".") g = true /\ lenient_integer g v /\ 0 <= v <= 255.

Section Text.

Ltac ascii_cases c :=
  destruct c as [[] [] [] [] [] [] [] []]; vm_compute; intros;
  try reflexivity; try discriminate.

Lemma isdigit_not_space c : Cxx.isdigit c = true -> Cxx.isspace c = false.
Proof. ascii_cases c. Qed.

Lemma isdigit_not_dot c : Cxx.isdigit c = true -> is_not "." c = true.
Proof. ascii_cases c. Qed.

Lemma isdigit_not_slash c : Cxx.isdigit c = true -> is_not "/" c = true.
Proof. ascii_cases c. Qed.

Lemma isdigit_not_nul c : Cxx.isdigit c = true -> is_not zero c = true.
Proof. ascii_cases c. Qed.

Lemma isdigit_value c : Cxx.isdigit c = true -> 0 <= Cxx.digit_value c <= 9.
Proof. ascii_cases c; split; discriminate. Qed.

Lemma isdigit_strip_sign c r :
  Cxx.isdigit c = true -> Cxx.strip_sign (String c r) = (false, String c r).
Proof. ascii_cases c. Qed.

Lemma all_chars_app P s1 s2 :
  all_chars P (s1 ++ s2) = all_chars P s1 && all_chars P s2.
Proof.
  induction s1 as [| c r IH]; cbn; [reflexivity |].
  rewrite IH. apply andb_assoc.
Qed.

Lemma all_chars_impl (P Q : ascii -> bool) s :
  (forall c, P c = true -> Q c = true) ->
  all_chars P s = true -> all_chars Q s = true.
Proof.
  intros HPQ. induction s as [| c r IH]; cbn; [reflexivity |].
  intros H. apply andb_true_iff in H as [Hc Hr].
  apply andb_true_iff. split; auto.
Qed.

Lemma append_nil_r s : (s ++ "")%string = s.
Proof. induction s as [| c r IH]; cbn; [reflexivity | now rewrite IH]. Qed.

Lemma append_assoc s1 s2 s3 : ((s1 ++ s2) ++ s3 = s1 ++ (s2 ++ s3))%string.
Proof. induction s1 as [| c r IH]; cbn; [reflexivity | now rewrite IH]. Qed.

Lemma length_append s1 s2 :
  String.length (s1 ++ s2) = (String.length s1 + String.length s2)%nat.
Proof. induction s1 as [| c r IH]; cbn; [reflexivity | now rewrite IH]. Qed.

Lemma take_length s : Cxx.take (String.length s) s = s.
Proof. induction s as [| c r IH]; cbn; [reflexivity | now rewrite IH]. Qed.

Lemma take_append s1 s2 : Cxx.take (String.length s1) (s1 ++ s2) = s1.
Proof.
  induction s1 as [| c r IH]; cbn; [now destruct s2 | now rewrite IH].
Qed.

Lemma drop_append s1 s2 : Cxx.drop (String.length s1) (s1 ++ s2) = s2.
Proof. induction s1 as [| c r IH]; cbn; [now destruct s2 | exact IH]. Qed.

Lemma c_str_no_nul s : all_chars (is_not zero) s = true -> Cxx.c_str s = s.
Proof.
  induction s as [| c r IH]; cbn; [reflexivity |].
  intros H. apply andb_true_iff in H as [Hc Hr].
  unfold is_not in Hc. apply negb_true_iff in Hc. rewrite Hc, IH by assumption.
  reflexivity.
Qed.

Lemma find_char_absent d s : all_chars (is_not d) s = true -> Cxx.find_char d s = None.
Proof.
  induction s as [| c r IH]; cbn; [reflexivity |].
  intros H. apply andb_true_iff in H as [Hc Hr].
  unfold is_not in Hc. apply negb_true_iff in Hc. rewrite Hc, IH by assumption.
  reflexivity.
Qed.

Lemma find_char_first d s1 s2 :
  all_chars (is_not d) s1 = true ->
  Cxx.find_char d (s1 ++ String d s2) = Some (String.length s1).
Proof.
  induction s1 as [| c r IH]; cbn.
  - now rewrite Ascii.eqb_refl.
  - intros H. apply andb_true_iff in H as [Hc Hr].
    unfold is_not in Hc. apply negb_true_iff in Hc. rewrite Hc, IH by assumption.
    reflexivity.
Qed.

(** [getlines] is the iteration of [getline]. *)
Lemma split_at_getlines d c r :
  Cxx.getlines d (String c r)
  = fst (Cxx.split_at d (String c r)) :: Cxx.getlines d (snd (Cxx.split_at d (String c r))).
Proof.
  revert c. induction r as [| c' r' IH]; intros c; cbn.
  - destruct (Ascii.eqb c d); reflexivity.
  - destruct (Ascii.eqb c d); [reflexivity |].
    specialize (IH c'). cbn in IH. rewrite IH.
    destruct (Ascii.eqb c' d); [reflexivity |].
    destruct (Cxx.split_at d r') as [token rest]. reflexivity.
Qed.

Lemma getlines_getline d stream :
  Cxx.getlines d stream
  = match Cxx.getline stream d with
    | None => []
    | Some (token, rest) => token :: Cxx.getlines d rest
    end.
Proof.
  destruct stream as [| c r]; [reflexivity |].
  rewrite split_at_getlines. unfold Cxx.getline.
  destruct (Cxx.split_at d (String c r)). reflexivity.
Qed.

Lemma getlines_group d g rest :
  all_chars (is_not d) g = true ->
  Cxx.getlines d (g ++ String d rest) = g :: Cxx.getlines d rest.
Proof.
  induction g as [| c r IH]; cbn.
  - now rewrite Ascii.eqb_refl.
  - intros H. apply andb_true_iff in H as [Hc Hr].
    unfold is_not in Hc. apply negb_true_iff in Hc. rewrite Hc, IH by assumption.
    reflexivity.
Qed.

Lemma getlines_last d g :
  g <> EmptyString -> all_chars (is_not d) g = true -> Cxx.getlines d g = [g].
Proof.
  induction g as [| c r IH]; [congruence |]. intros _ H. cbn in *.
  apply andb_true_iff in H as [Hc Hr].
  unfold is_not in Hc. apply negb_true_iff in Hc. rewrite Hc.
  destruct r as [| c' r']; [reflexivity |].
  rewrite IH by (congruence || assumption). reflexivity.
Qed.

Lemma decimal_from_nonneg g acc :
  all_chars Cxx.isdigit g = true -> 0 <= acc -> acc <= decimal_from acc g.
Proof.
  revert acc.
  induction g as [| c r IH]; cbn [decimal_from all_chars]; intros acc H Hacc; [lia |].
  apply andb_true_iff in H as [Hc Hr].
  pose proof (isdigit_value c Hc).
  specialize (IH (10 * acc + Cxx.digit_value c) Hr). lia.
Qed.

Lemma strtol_digits_group g rest acc :
  all_chars Cxx.isdigit g = true -> Cxx.starts_with_digit rest = false ->
  Cxx.strtol_digits acc (g ++ rest) = decimal_from acc g.
Proof.
  revert acc.
  induction g as [| c r IH];
    cbn [decimal_from all_chars String.append Cxx.strtol_digits]; intros acc H Hrest.
  - destruct rest as [| c' r']; [reflexivity |].
    cbn [Cxx.starts_with_digit Cxx.strtol_digits] in *. now rewrite Hrest.
  - apply andb_true_iff in H as [Hc Hr]. rewrite Hc. now apply IH.
Qed.

(** [stoi] reads a leading decimal group and ignores what follows it. *)
Lemma stoi_group g rest :
  decimal_group g -> Cxx.starts_with_digit rest = false ->
  decimal g <= Cxx.INT_MAX ->
  Cxx.stoi (g ++ rest) = Ok (decimal g).
Proof.
  intros [Hne Hdig] Hrest Hmax.
  pose proof (decimal_from_nonneg g 0 Hdig ltac:(lia)) as Hpos.
  fold (decimal g) in Hpos.
  destruct g as [| c r]; [congruence |].
  pose proof Hdig as Hdig'. cbn in Hdig'.
  apply andb_true_iff in Hdig' as [Hc Hr].
  unfold Cxx.stoi. cbn [String.append Cxx.skip_space].
  rewrite (isdigit_not_space c Hc), (isdigit_strip_sign c _ Hc).
  cbn [Cxx.starts_with_digit]. rewrite Hc.
  change (String c (r ++ rest)) with (String c r ++ rest)%string.
  rewrite strtol_digits_group by assumption. fold (decimal (String c r)).
  replace ((Cxx.INT_MIN <=? decimal (String c r)) && (decimal (String c r) <=? Cxx.INT_MAX))
    with true; [reflexivity |].
  symmetry. apply andb_true_iff. unfold Cxx.INT_MIN in *. split; lia.
Qed.

Lemma stoi_octet_text g v rest :
  octet_text g v -> Cxx.starts_with_digit rest = false ->
  Cxx.stoi (g ++ rest) = Ok v /\ 0 <= v <= 255.
Proof.
  intros (Hg & Hv & Hle) Hrest. subst v.
  pose proof (decimal_from_nonneg g 0 (proj2 Hg) ltac:(lia)) as Hpos.
  fold (decimal g) in Hpos.
  split; [| lia]. apply stoi_group; try assumption.
  unfold Cxx.INT_MAX. lia.
Qed.

(** [stoi] throws nothing but its two documented exceptions. *)
Lemma stoi_throws str e :
  Cxx.stoi str = Throw e ->
  e = invalid_argument "stoi" \/ e = out_of_range "stoi".
Proof.
  unfold Cxx.stoi. destruct (Cxx.strip_sign (Cxx.skip_space str)) as [negative body].
  destruct (Cxx.starts_with_digit body); [| intros [= <-]; now left].
  match goal with |- context [if ?b then Ok _ else _] => destruct b end;
    [discriminate | intros [= <-]; now right].
Qed.

(** ** What [stoi] accepts *)

Lemma skip_space_spec g :
  exists ws, g = (ws ++ Cxx.skip_space g)%string /\ all_chars Cxx.isspace ws = true.
Proof.
  induction g as [| c r (ws & Hr & Hws)]; cbn [Cxx.skip_space].
  - exists EmptyString. split; reflexivity.
  - destruct (Cxx.isspace c) eqn:Hc.
    + exists (String c ws). cbn. rewrite <- Hr, Hc, Hws. split; reflexivity.
    + exists EmptyString. split; reflexivity.
Qed.

Lemma skip_space_app ws x :
  all_chars Cxx.isspace ws = true -> Cxx.skip_space (ws ++ x) = Cxx.skip_space x.
Proof.
  induction ws as [| c r IH]; cbn [all_chars String.append Cxx.skip_space];
    [reflexivity |].
  intros H. apply andb_true_iff in H as [Hc Hr]. rewrite Hc. now apply IH.
Qed.

Lemma skip_space_digit c r :
  Cxx.isdigit c = true -> Cxx.skip_space (String c r) = String c r.
Proof. intros Hc. cbn [Cxx.skip_space]. now rewrite (isdigit_not_space c Hc). Qed.

Lemma strip_sign_spec s negative body :
  Cxx.strip_sign s = (negative, body) ->
  (negative = false /\ s = body)
  \/ (negative = false /\ s = String "+" body)
  \/ (negative = true /\ s = String "-" body).
Proof.
  destruct s as [| c r]; cbn; [intros [= <- <-]; now left |].
  destruct c as [[] [] [] [] [] [] [] []]; cbn; intros [= <- <-]; auto.
Qed.

Lemma digits_prefix body :
  Cxx.starts_with_digit body = true ->
  exists digits rest,
    body = (digits ++ rest)%string /\ decimal_group digits
    /\ Cxx.starts_with_digit rest = false.
Proof.
  induction body as [| c r IH]; [discriminate |].
  cbn [Cxx.starts_with_digit]. intros Hc.
  destruct (Cxx.starts_with_digit r) eqn:Hr.
  - destruct (IH eq_refl) as (digits & rest & -> & (_ & Hdig) & Hrest).
    exists (String c digits), rest. repeat split; try assumption; [discriminate |].
    cbn [all_chars]. now rewrite Hc, Hdig.
  - exists (String c EmptyString), r. repeat split; try assumption; [discriminate |].
    cbn [all_chars]. now rewrite Hc.
Qed.

Lemma decimal_group_head digits rest :
  decimal_group digits ->
  exists c r, (digits ++ rest)%string = String c r /\ Cxx.isdigit c = true.
Proof.
  intros [Hne Hdig]. destruct digits as [| c r]; [congruence |].
  cbn [all_chars] in Hdig. apply andb_true_iff in Hdig as [Hc _].
  exists c, (r ++ rest)%string. split; [reflexivity | assumption].
Qed.

(** [stoi] returns [v] exactly for the texts that read as [v], provided
    [v] is an [int]. *)
Lemma stoi_ok_iff g v :
  Cxx.stoi g = Ok v <->
  lenient_integer g v /\ Cxx.INT_MIN <= v <= Cxx.INT_MAX.
Proof.
  split.
  - unfold Cxx.stoi. destruct (skip_space_spec g) as (ws & Hg & Hws).
    destruct (Cxx.strip_sign (Cxx.skip_space g)) as [negative body] eqn:Hsign.
    destruct (Cxx.starts_with_digit body) eqn:Hbody; [| discriminate].
    destruct (digits_prefix body Hbody) as (digits & rest & -> & Hdig & Hrest).
    rewrite strtol_digits_group by (apply Hdig || assumption).
    fold (decimal digits).
    match goal with |- context [if ?b then Ok _ else _] => destruct b eqn:Hrange end;
      [| discriminate].
    intros [= <-]. apply andb_true_iff in Hrange as [Hlo Hhi].
    apply Z.leb_le in Hlo, Hhi. split; [| lia].
    apply strip_sign_spec in Hsign as [[-> Hs] | [[-> Hs] | [-> Hs]]];
      rewrite Hs in Hg.
    + exists ws, EmptyString, digits, rest. repeat split; try apply Hdig; auto.
    + exists ws, "+"%string, digits, rest. repeat split; try apply Hdig; auto.
    + exists ws, "-"%string, digits, rest. repeat split; try apply Hdig; auto.
  - intros [(ws & sign & digits & rest & -> & Hws & Hdig & Hrest & Hv) [Hlo Hhi]].
    unfold Cxx.stoi. rewrite skip_space_app by assumption.
    destruct (decimal_group_head digits rest Hdig) as (c & r & Hhead & Hc).
    assert (Hbody : Cxx.starts_with_digit (digits ++ rest) = true)
      by (rewrite Hhead; exact Hc).
    assert (Hnum : Cxx.strtol_digits 0 (digits ++ rest) = decimal digits)
      by (apply strtol_digits_group; [apply Hdig | assumption]).
    assert (Hrange : (Cxx.INT_MIN <=? v) && (v <=? Cxx.INT_MAX) = true)
      by (apply andb_true_iff; split; apply Z.leb_le; assumption).
    destruct Hv as [[[-> | ->] ->] | [-> ->]]; cbn [String.append].
    + rewrite Hhead, (skip_space_digit c r Hc), (isdigit_strip_sign c r Hc), <- Hhead.
      cbv beta iota. now rewrite Hbody, Hnum, Hrange.
    + change (Cxx.skip_space (String "+" (digits ++ rest)))
        with (String "+" (digits ++ rest)).
      change (Cxx.strip_sign (String "+" (digits ++ rest)))
        with (false, (digits ++ rest)%string).
      cbv beta iota. now rewrite Hbody, Hnum, Hrange.
    + change (Cxx.skip_space (String "-" (digits ++ rest)))
        with (String "-" (digits ++ rest)).
      change (Cxx.strip_sign (String "-" (digits ++ rest)))
        with (true, (digits ++ rest)%string).
      cbv beta iota. now rewrite Hbody, Hnum, Hrange.
Qed.

(** ** What [getline] cuts *)

Lemma split_at_spec d s token rest :
  Cxx.split_at d s = (token, rest) ->
  all_chars (is_not d) token = true
  /\ (s = (token ++ String d rest)%string \/ (s = token /\ rest = EmptyString)).
Proof.
  revert token rest. induction s as [| c r IH]; intros token rest; cbn [Cxx.split_at].
  - intros [= <- <-]. split; [reflexivity | now right].
  - destruct (Ascii.eqb_spec c d) as [-> | Hne].
    + intros [= <- <-]. split; [reflexivity | now left].
    + destruct (Cxx.split_at d r) as [token' rest'].
      intros [= <- <-]. destruct (IH token' rest' eq_refl) as [Hall Hcut].
      split.
      * cbn [all_chars]. unfold is_not at 1.
        apply Ascii.eqb_neq in Hne. now rewrite Hne, Hall.
      * destruct Hcut as [-> | [-> ->]]; [left | right]; auto.
Qed.

Lemma getlines_cons_inv d t g gs :
  Cxx.getlines d t = g :: gs ->
  all_chars (is_not d) g = true
  /\ ((exists rest, t = (g ++ String d rest)%string /\ Cxx.getlines d rest = gs)
      \/ (t = g /\ gs = [])).
Proof.
  rewrite getlines_getline. unfold Cxx.getline.
  destruct t as [| c r]; [discriminate |].
  destruct (Cxx.split_at d (String c r)) as [token rest] eqn:Hsplit.
  intros [= <- <-]. apply split_at_spec in Hsplit as [Hall [Hcut | [Hcut ->]]].
  - split; [assumption | left; eauto].
  - split; [assumption | right; split; [assumption | reflexivity]].
Qed.

Lemma getlines_nil_inv d t : Cxx.getlines d t = [] -> t = EmptyString.
Proof.
  destruct t as [| c r]; [reflexivity |]. cbn [Cxx.getlines].
  destruct (Ascii.eqb c d); [discriminate |].
  destruct (Cxx.getlines d r); discriminate.
Qed.

(** Four tokens come out of a text of four groups without dots, separated
    by dots, with at most one more dot at the end. *)
Lemma getlines_four t g0 g1 g2 g3 :
  g3 <> EmptyString ->
  Cxx.getlines "." t = [g0; g1; g2; g3] <->
  exists tail,
    t = (g0 ++ "." ++ g1 ++ "." ++ g2 ++ "." ++ g3 ++ tail)%string
    /\ (tail = EmptyString \/ tail = "."%string)
    /\ all_chars (is_not ".") g0 = true /\ all_chars (is_not ".") g1 = true
    /\ all_chars (is_not ".") g2 = true /\ all_chars (is_not ".") g3 = true.
Proof.
  intros Hne. split.
  - intros H.
    apply getlines_cons_inv in H as [D0 [(r0 & -> & H) | [_ [=]]]].
    apply getlines_cons_inv in H as [D1 [(r1 & -> & H) | [_ [=]]]].
    apply getlines_cons_inv in H as [D2 [(r2 & -> & H) | [_ [=]]]].
    apply getlines_cons_inv in H as [D3 [(r3 & -> & H) | [-> _]]].
    + apply getlines_nil_inv in H as ->. exists "."%string. tauto.
    + exists EmptyString. rewrite append_nil_r. tauto.
  - intros (tail & -> & Htail & D0 & D1 & D2 & D3).
    cbn [String.append]. rewrite !getlines_group by assumption.
    destruct Htail as [-> | ->].
    + rewrite append_nil_r. now rewrite getlines_last.
    + now rewrite getlines_group.
Qed.

End Text.

(** * Parsing an address *)

Section AddressParsing.

Lemma octet_in_range v : 0 <= v <= 255 -> (v <? 0) || (255 <? v) = false.
Proof. intros H. apply orb_false_iff. split; apply Z.ltb_ge; lia. Qed.

Lemma octet_out_of_range v : ~ 0 <= v <= 255 -> (v <? 0) || (255 <? v) = true.
Proof.
  intros H. apply orb_true_iff.
  destruct (Z.ltb_spec v 0); [now left | right]. apply Z.ltb_lt. lia.
Qed.

(** One turn of the loop on an acceptable token. *)
Lemma parse_loop_step token tokens i octets v :
  (i < 4)%nat -> Cxx.stoi token = Ok v -> 0 <= v <= 255 ->
  IPv4Address.parse_loop (token :: tokens) i octets
  = IPv4Address.parse_loop tokens (S i) (IPv4Address.set octets i v).
Proof.
  intros Hi Hv Hr. cbn [IPv4Address.parse_loop].
  replace (4 <=? i)%nat with false by (symmetry; apply Nat.leb_gt; lia).
  rewrite Hv. cbn [bind]. rewrite octet_in_range, to_uint8_small by assumption.
  reflexivity.
Qed.

(** A turn of the loop that does not throw had an acceptable token. *)
Lemma parse_loop_step_inv token tokens i octets r :
  IPv4Address.parse_loop (token :: tokens) i octets = Ok r ->
  (i < 4)%nat /\
  exists v, Cxx.stoi token = Ok v /\ 0 <= v <= 255 /\
            IPv4Address.parse_loop tokens (S i) (IPv4Address.set octets i v) = Ok r.
Proof.
  cbn [IPv4Address.parse_loop].
  destruct (Nat.leb_spec 4 i) as [Hge | Hlt]; [discriminate |].
  destruct (Cxx.stoi token) as [v | e]; [| discriminate]. cbn [bind].
  destruct (Z.ltb_spec v 0) as [| Hlo]; [discriminate |].
  destruct (Z.ltb_spec 255 v) as [| Hhi]; [discriminate |]. cbn [orb].
  rewrite to_uint8_small by lia.
  intros Hrest. split; [assumption |]. exists v. repeat split; assumption || lia.
Qed.

Lemma parse_loop_throws tokens i octets e :
  IPv4Address.parse_loop tokens i octets = Throw e ->
  (exists what, e = invalid_argument what) \/ e = out_of_range "stoi".
Proof.
  revert i octets. induction tokens as [| token tokens IH]; intros i octets.
  - discriminate.
  - cbn [IPv4Address.parse_loop].
    destruct (4 <=? i)%nat; [intros [= <-]; left; eauto |].
    destruct (Cxx.stoi token) as [v | e'] eqn:Hstoi; cbn [bind].
    + destruct ((v <? 0) || (255 <? v)); [intros [= <-]; left; eauto | apply IH].
    + intros [= <-]. destruct (stoi_throws _ _ Hstoi) as [-> | ->]; eauto.
Qed.

(** The constructor throws nothing but [invalid_argument] and the
    [out_of_range] of [stoi]. *)
Lemma of_string_view_throws address e :
  IPv4Address.of_string_view address = Throw e ->
  (exists what, e = invalid_argument what) \/ e = out_of_range "stoi".
Proof.
  unfold IPv4Address.of_string_view.
  destruct (IPv4Address.parse_loop _ 0 IPv4Address.unwritten) as [[i octets] | e']
    eqn:Hloop; cbn [bind].
  - destruct (negb (i =? 4)%nat); [intros [= <-]; left; eauto | discriminate].
  - intros [= <-]. eapply parse_loop_throws; eassumption.
Qed.

(** The constructor succeeds exactly when the stream yields four tokens and
    [stoi] reads each of them as an integer of [0,255]; these integers are
    the octets, in order. *)
Lemma of_string_view_ok_iff address ip :
  IPv4Address.of_string_view address = Ok ip <->
  exists g0 g1 g2 g3,
    Cxx.getlines "." (Cxx.c_str (Cxx.sv_data address)) = [g0; g1; g2; g3]
    /\ Cxx.stoi g0 = Ok (IPv4Address.octet0 ip)
    /\ Cxx.stoi g1 = Ok (IPv4Address.octet1 ip)
    /\ Cxx.stoi g2 = Ok (IPv4Address.octet2 ip)
    /\ Cxx.stoi g3 = Ok (IPv4Address.octet3 ip)
    /\ wf_address ip.
Proof.
  unfold IPv4Address.of_string_view. split.
  - destruct (IPv4Address.parse_loop _ 0 IPv4Address.unwritten) as [[i octets] | e]
      eqn:Hloop; cbn [bind]; [| discriminate].
    destruct (Nat.eqb_spec i 4) as [-> | Hne]; cbn [negb]; [| discriminate].
    intros [= ->].
    destruct (Cxx.getlines "." _) as [| g0 [| g1 [| g2 [| g3 [| g4 rest]]]]];
      try discriminate Hloop.
    + apply parse_loop_step_inv in Hloop as (_ & v0 & _ & _ & Hloop). discriminate.
    + apply parse_loop_step_inv in Hloop as (_ & v0 & _ & _ & Hloop).
      apply parse_loop_step_inv in Hloop as (_ & v1 & _ & _ & Hloop). discriminate.
    + apply parse_loop_step_inv in Hloop as (_ & v0 & _ & _ & Hloop).
      apply parse_loop_step_inv in Hloop as (_ & v1 & _ & _ & Hloop).
      apply parse_loop_step_inv in Hloop as (_ & v2 & _ & _ & Hloop). discriminate.
    + apply parse_loop_step_inv in Hloop as (_ & v0 & H0 & R0 & Hloop).
      apply parse_loop_step_inv in Hloop as (_ & v1 & H1 & R1 & Hloop).
      apply parse_loop_step_inv in Hloop as (_ & v2 & H2 & R2 & Hloop).
      apply parse_loop_step_inv in Hloop as (_ & v3 & H3 & R3 & Hloop).
      injection Hloop as <-.
      exists g0, g1, g2, g3. unfold wf_address, octet_ok. cbn. tauto.
    + apply parse_loop_step_inv in Hloop as (_ & v0 & _ & _ & Hloop).
      apply parse_loop_step_inv in Hloop as (_ & v1 & _ & _ & Hloop).
      apply parse_loop_step_inv in Hloop as (_ & v2 & _ & _ & Hloop).
      apply parse_loop_step_inv in Hloop as (_ & v3 & _ & _ & Hloop).
      apply parse_loop_step_inv in Hloop as (Hlt & _). lia.
  - intros (g0 & g1 & g2 & g3 & -> & H0 & H1 & H2 & H3 & R0 & R1 & R2 & R3).
    unfold octet_ok in *.
    rewrite (parse_loop_step g0 _ 0 _ _ ltac:(lia) H0 R0).
    rewrite (parse_loop_step g1 _ 1 _ _ ltac:(lia) H1 R1).
    rewrite (parse_loop_step g2 _ 2 _ _ ltac:(lia) H2 R2).
    rewrite (parse_loop_step g3 _ 3 _ _ ltac:(lia) H3 R3).
    destruct ip. reflexivity.
Qed.

Lemma stoi_lenient_octet g v :
  all_chars (is_not ".") g = true ->
  Cxx.stoi g = Ok v /\ 0 <= v <= 255 <-> lenient_octet g v.
Proof.
  intros Hdots. unfold lenient_octet. rewrite stoi_ok_iff.
  unfold Cxx.INT_MIN, Cxx.INT_MAX. change (2 ^ 31) with 2147483648.
  split; [intros [[Hg _] Hv]; auto | intros (_ & Hg & Hv)].
  repeat split; assumption || lia.
Qed.

Lemma stoi_nonempty g v : Cxx.stoi g = Ok v -> g <> EmptyString.
Proof. intros H ->. discriminate H. Qed.

(** The same, with the tokens and what [stoi] makes of them spelled out:
    the text up to the first NUL is four groups without dots, separated by
    dots, with at most one more dot at the end, and each group reads as an
    integer of [0,255], the octet. *)
Lemma of_string_view_ok_text address ip :
  IPv4Address.of_string_view address = Ok ip <->
  exists g0 g1 g2 g3 tail,
    Cxx.c_str (Cxx.sv_data address)
    = (g0 ++ "." ++ g1 ++ "." ++ g2 ++ "." ++ g3 ++ tail)%string
    /\ (tail = EmptyString \/ tail = "."%string)
    /\ lenient_octet g0 (IPv4Address.octet0 ip)
    /\ lenient_octet g1 (IPv4Address.octet1 ip)
    /\ lenient_octet g2 (IPv4Address.octet2 ip)
    /\ lenient_octet g3 (IPv4Address.octet3 ip).
Proof.
  rewrite of_string_view_ok_iff. split.
  - intros (g0 & g1 & g2 & g3 & Hcut & S0 & S1 & S2 & S3 & R0 & R1 & R2 & R3).
    apply (getlines_four _ _ _ _ _ (stoi_nonempty _ _ S3)) in Hcut
      as (tail & Ht & Htail & D0 & D1 & D2 & D3).
    exists g0, g1, g2, g3, tail. unfold octet_ok in *.
    split; [assumption |]. split; [assumption |].
    split; [| split; [| split]]; apply stoi_lenient_octet; auto.
  - intros (g0 & g1 & g2 & g3 & tail & Ht & Htail & L0 & L1 & L2 & L3).
    pose proof (proj1 L0) as D0. pose proof (proj1 L1) as D1.
    pose proof (proj1 L2) as D2. pose proof (proj1 L3) as D3.
    apply stoi_lenient_octet in L0 as [S0 R0]; [| assumption].
    apply stoi_lenient_octet in L1 as [S1 R1]; [| assumption].
    apply stoi_lenient_octet in L2 as [S2 R2]; [| assumption].
    apply stoi_lenient_octet in L3 as [S3 R3]; [| assumption].
    exists g0, g1, g2, g3. unfold wf_address, octet_ok.
    split; [| tauto].
    apply (getlines_four _ _ _ _ _ (stoi_nonempty _ _ S3)).
    exists tail. tauto.
Qed.

Lemma of_string_view_wf address ip :
  IPv4Address.of_string_view address = Ok ip -> wf_address ip.
Proof.
  intros H. apply of_string_view_ok_iff in H.
  destruct H as (g0 & g1 & g2 & g3 & H). tauto.
Qed.

Lemma octet_text_chars g v (P : ascii -> bool) :
  (forall c, Cxx.isdigit c = true -> P c = true) ->
  octet_text g v -> all_chars P g = true.
Proof.
  intros HP ((_ & Hdig) & _). eapply all_chars_impl; eassumption.
Qed.

Lemma dotted_quad_chars s a b c d (P : ascii -> bool) :
  (forall x, Cxx.isdigit x = true -> P x = true) -> P "."%char = true ->
  dotted_quad s a b c d -> all_chars P s = true.
Proof.
  intros HP Hdot (g0 & g1 & g2 & g3 & -> & T0 & T1 & T2 & T3).
  rewrite !all_chars_app. cbn [all_chars].
  rewrite (octet_text_chars g0 a P), (octet_text_chars g1 b P),
    (octet_text_chars g2 c P), (octet_text_chars g3 d P), Hdot by assumption.
  reflexivity.
Qed.

(** A dotted quad is read as its four numbers, whatever text without digits
    in front, dots or NUL follows it in the buffer, and whatever the size of
    the view. *)
Lemma of_string_view_dotted_quad s a b c d trailer size :
  dotted_quad s a b c d ->
  Cxx.starts_with_digit trailer = false ->
  all_chars (is_not ".") trailer = true ->
  all_chars (is_not zero) trailer = true ->
  IPv4Address.of_string_view {| Cxx.sv_data := s ++ trailer; Cxx.sv_size := size |}
  = Ok (ipv4 a b c d).
Proof.
  intros Hs Htrail Hdots Hnul.
  apply of_string_view_ok_iff. cbn [Cxx.sv_data].
  rewrite c_str_no_nul.
  2:{ rewrite all_chars_app, Hnul, andb_true_r.
      apply (dotted_quad_chars s a b c d); [apply isdigit_not_nul | reflexivity | exact Hs]. }
  destruct Hs as (g0 & g1 & g2 & g3 & -> & T0 & T1 & T2 & T3).
  exists g0, g1, g2, (g3 ++ trailer)%string.
  destruct (stoi_octet_text g0 a "" T0 eq_refl) as [S0 R0].
  destruct (stoi_octet_text g1 b "" T1 eq_refl) as [S1 R1].
  destruct (stoi_octet_text g2 c "" T2 eq_refl) as [S2 R2].
  destruct (stoi_octet_text g3 d trailer T3 Htrail) as [S3 R3].
  rewrite append_nil_r in S0, S1, S2.
  repeat split; try assumption; unfold octet_ok; cbn; try lia.
  repeat (progress (rewrite ?append_assoc; cbn [String.append])).
  rewrite !getlines_group by (eapply octet_text_chars; [apply isdigit_not_dot | eassumption]).
  rewrite getlines_last; [reflexivity | |].
  - destruct T3 as ((Hne & _) & _). destruct g3; [congruence | discriminate].
  - rewrite all_chars_app, Hdots, andb_true_r.
    eapply octet_text_chars; [apply isdigit_not_dot | eassumption].
Qed.

End AddressParsing.

(** * Constructing an analyzer *)

Section Construction.

(** The address constructor reads [data()] only. *)
Lemma of_string_view_data v w :
  Cxx.sv_data v = Cxx.sv_data w ->
  IPv4Address.of_string_view v = IPv4Address.of_string_view w.
Proof. unfold IPv4Address.of_string_view. now intros ->. Qed.

Lemma sv_substr_front v count :
  exists size, Cxx.sv_substr v 0 count
               = Ok {| Cxx.sv_data := Cxx.sv_data v; Cxx.sv_size := size |}.
Proof.
  unfold Cxx.sv_substr. cbn [Nat.ltb Nat.leb].
  destruct (Cxx.sv_data v); eexists; reflexivity.
Qed.

(** The constructor, with the member initialiser unfolded. *)
Lemma ctor_unfold ip_cidr :
  IPAnalyzer.ctor ip_cidr
  = (ip <- IPv4Address.of_string_view ip_cidr ;;
     match Cxx.sv_find ip_cidr "/" with
     | None => Throw (invalid_argument "Invalid IP/CIDR format")
     | Some slash_pos =>
         tail <- Cxx.sv_substr ip_cidr (slash_pos + 1) None ;;
         n <- Cxx.stoi (Cxx.sv_to_string tail) ;;
         if 32 <? Cxx.to_uint8 n then Throw (invalid_argument "Invalid CIDR value")
         else Ok {| IPAnalyzer.ip_ := ip; IPAnalyzer.cidr_ := Cxx.to_uint8 n |}
     end).
Proof.
  unfold IPAnalyzer.ctor.
  destruct (sv_substr_front ip_cidr (Cxx.sv_find ip_cidr "/")) as [size ->].
  cbn [bind]. now rewrite (of_string_view_data _ ip_cidr).
Qed.

(** What the constructor builds is well formed. *)
Lemma ctor_wf ip_cidr a : IPAnalyzer.ctor ip_cidr = Ok a -> wf_analyzer a.
Proof.
  rewrite ctor_unfold.
  destruct (IPv4Address.of_string_view ip_cidr) as [ip | e] eqn:Hip; [| discriminate].
  cbn [bind]. destruct (Cxx.sv_find ip_cidr "/") as [slash_pos |]; [| discriminate].
  destruct (Cxx.sv_substr ip_cidr (slash_pos + 1) None) as [tail | e]; [| discriminate].
  cbn [bind]. destruct (Cxx.stoi (Cxx.sv_to_string tail)) as [n | e]; [| discriminate].
  cbn [bind]. destruct (Z.ltb_spec 32 (Cxx.to_uint8 n)) as [| Hle]; [discriminate |].
  intros [= <-]. split; cbn.
  - eapply of_string_view_wf; eassumption.
  - split; [| assumption]. unfold Cxx.to_uint8. apply Z.mod_pos_bound. lia.
Qed.

(** Without a ['/'] in the view the constructor throws. *)
Lemma ctor_no_slash ip_cidr :
  Cxx.sv_find ip_cidr "/" = None ->
  exists e, IPAnalyzer.ctor ip_cidr = Throw e.
Proof.
  intros Hfind. rewrite ctor_unfold, Hfind.
  destruct (IPv4Address.of_string_view ip_cidr) as [ip | e]; cbn [bind]; eauto.
Qed.

Lemma sv_find_view_of s d : Cxx.sv_find (Cxx.view_of s) d = Cxx.find_char d s.
Proof. unfold Cxx.sv_find, Cxx.view_of. cbn. now rewrite take_length. Qed.

(** A dotted quad, a ['/'] and a decimal group [suffix]: the prefix length
    is the value of [suffix] reduced modulo 256, and only that reduced value
    is compared with 32. *)
Lemma ctor_dotted_quad_prefix q a b c d suffix :
  dotted_quad q a b c d -> decimal_group suffix -> decimal suffix <= Cxx.INT_MAX ->
  IPAnalyzer.of_string (q ++ "/" ++ suffix)
  = if 32 <? decimal suffix mod 256
    then Throw (invalid_argument "Invalid CIDR value")
    else Ok (analyzer (ipv4 a b c d) (decimal suffix mod 256)).
Proof.
  intros Hq Hsuffix Hmax.
  unfold IPAnalyzer.of_string. rewrite ctor_unfold.
  unfold Cxx.view_of at 1.
  rewrite (of_string_view_dotted_quad q a b c d ("/" ++ suffix)); try assumption; try reflexivity.
  2:{ cbn. eapply all_chars_impl; [apply isdigit_not_dot | apply Hsuffix]. }
  2:{ cbn. eapply all_chars_impl; [apply isdigit_not_nul | apply Hsuffix]. }
  cbn [bind]. rewrite sv_find_view_of.
  cbn [String.append]. rewrite find_char_first.
  2:{ apply (dotted_quad_chars q a b c d); [apply isdigit_not_slash | reflexivity | exact Hq]. }
  unfold Cxx.sv_substr, Cxx.view_of. cbn [Cxx.sv_size Cxx.sv_data].
  rewrite length_append. cbn [String.length].
  replace (_ <? _)%nat with false by (symmetry; apply Nat.ltb_ge; lia).
  cbn [bind]. unfold Cxx.sv_to_string. cbn [Cxx.sv_size Cxx.sv_data].
  replace (String.length q + 1)%nat with (String.length (q ++ "/")).
  2:{ rewrite length_append. reflexivity. }
  change (q ++ String "/" suffix)%string with (q ++ ("/" ++ suffix))%string.
  rewrite <- append_assoc, drop_append.
  replace (_ - _)%nat with (String.length suffix)
    by (rewrite !length_append; cbn [String.length]; lia).
  rewrite take_length.
  rewrite <- (append_nil_r suffix) at 1.
  rewrite stoi_group by (assumption || reflexivity).
  reflexivity.
Qed.

End Construction.

(** * Printing and reading back *)

Definition octet_text_b (g : string) (v : Z) : bool :=
  negb (String.eqb g "") && all_chars Cxx.isdigit g && (decimal g =? v) && (v <=? 255).

Section RoundTrip.

Lemma octet_text_b_sound g v : octet_text_b g v = true -> octet_text g v.
Proof.
  unfold octet_text_b, octet_text, decimal_group.
  rewrite !andb_true_iff, negb_true_iff, String.eqb_neq, Z.eqb_eq, Z.leb_le. tauto.
Qed.

Lemma print_octets_checked :
  forallb (fun n => octet_text_b (Cxx.print_int (Z.of_nat n)) (Z.of_nat n)) (seq 0 256)
  = true.
Proof. vm_compute. reflexivity. Qed.

(** An octet prints as a decimal group that denotes it. *)
Lemma print_int_octet v : octet_ok v -> octet_text (Cxx.print_int v) v.
Proof.
  intros Hv. unfold octet_ok in Hv. apply octet_text_b_sound.
  pose proof (proj1 (forallb_forall _ _) print_octets_checked (Z.to_nat v)) as H.
  cbv beta in H. rewrite Z2Nat.id in H by lia. apply H. apply in_seq. lia.
Qed.

Lemma to_string_dotted_quad a :
  wf_address a ->
  dotted_quad (IPv4Address.to_string a) (IPv4Address.octet0 a) (IPv4Address.octet1 a)
              (IPv4Address.octet2 a) (IPv4Address.octet3 a).
Proof.
  intros (H0 & H1 & H2 & H3). unfold dotted_quad, IPv4Address.to_string.
  do 4 eexists. split; [reflexivity |].
  repeat split; now apply print_int_octet.
Qed.

(** Reading back what [to_string] printed gives the address again. *)
Lemma of_string_view_to_string a :
  wf_address a ->
  IPv4Address.of_string_view (Cxx.view_of (IPv4Address.to_string a)) = Ok a.
Proof.
  intros Hwf. unfold Cxx.view_of.
  rewrite <- (append_nil_r (IPv4Address.to_string a)) at 1.
  rewrite (of_string_view_dotted_quad _ _ _ _ _ "" _ (to_string_dotted_quad a Hwf));
    try reflexivity.
  now destruct a.
Qed.

(** Every well-formed analyzer is built by the constructor from the text
    [address/prefix]; with [ctor_wf], the well-formed analyzers are exactly
    the constructed ones. *)
Lemma wf_analyzer_constructed a :
  wf_analyzer a ->
  IPAnalyzer.of_string
    (IPv4Address.to_string (IPAnalyzer.ip_ a) ++ "/" ++ Cxx.print_int (IPAnalyzer.cidr_ a))
  = Ok a.
Proof.
  intros [Hip Hp].
  assert (Hprint : octet_text (Cxx.print_int (IPAnalyzer.cidr_ a)) (IPAnalyzer.cidr_ a))
    by (apply print_int_octet; unfold octet_ok; lia).
  destruct Hprint as (Hgroup & Hval & _).
  rewrite (ctor_dotted_quad_prefix _ _ _ _ _ _ (to_string_dotted_quad _ Hip) Hgroup)
    by (rewrite Hval; unfold Cxx.INT_MAX; lia).
  rewrite Hval, Z.mod_small by lia.
  destruct (Z.ltb_spec 32 (IPAnalyzer.cidr_ a)); [lia |].
  destruct a as [[o0 o1 o2 o3] p]. reflexivity.
Qed.

End RoundTrip.

(** * Network and broadcast as arithmetic *)

Section NetworkArithmetic.

Variable x : Z.
Variable k : Z.
Hypothesis x_range : 0 <= x < 2 ^ 32.
Hypothesis k_range : 0 <= k <= 32.

Lemma land_lnot_ones : Z.land x (Z.lnot (Z.ones k)) = x - x mod 2 ^ k.
Proof. rewrite <- Z.sub_land_same_l, Z.land_ones by lia. reflexivity. Qed.

(** Clearing the low [k] bits. *)
Lemma land_high_mask : Z.land x (2 ^ 32 - 2 ^ k) = x - x mod 2 ^ k.
Proof.
  rewrite <- land_lnot_ones.
  replace (2 ^ 32 - 2 ^ k) with (Z.land (Z.lnot (Z.ones k)) (Z.ones 32)).
  - rewrite (Z.land_comm (Z.lnot _)), Z.land_assoc, (Z.land_ones x 32) by lia.
    rewrite Z.mod_small by assumption. reflexivity.
  - rewrite Z.land_ones, Z.lnot_eq_pred_opp, Z.ones_equiv by lia.
    pose proof (pow2_le_32 k k_range).
    symmetry. apply Z.mod_unique_pos with (q := -1); lia.
Qed.

(** Setting the low [k] bits. *)
Lemma lor_low_mask : Z.lor x (2 ^ k - 1) = x - x mod 2 ^ k + (2 ^ k - 1).
Proof.
  rewrite <- land_lnot_ones.
  replace (2 ^ k - 1) with (Z.ones k) by (rewrite Z.ones_equiv; lia).
  rewrite <- Z.sub_lor_l_same_r. lia.
Qed.

End NetworkArithmetic.

Section DerivedValues.

Variable a : IPAnalyzer.t.
Hypothesis a_wf : wf_analyzer a.

Let p := IPAnalyzer.cidr_ a.
Let x := IPv4Address.to_uint32 (IPAnalyzer.ip_ a).

Lemma stored_value_range : 0 <= x < 2 ^ 32.
Proof. apply to_uint32_range_wf, a_wf. Qed.

Lemma host_bits_range : 0 <= 32 - p <= 32.
Proof. destruct a_wf as [_ Hp]. subst p. lia. Qed.

Lemma mod_host_bits_range :
  0 <= x mod 2 ^ (32 - p) < 2 ^ (32 - p) /\ x mod 2 ^ (32 - p) <= x.
Proof.
  pose proof (pow2_le_32 _ host_bits_range). pose proof stored_value_range.
  split; [apply Z.mod_pos_bound | apply Z.mod_le]; lia.
Qed.

(** The network address is the stored address with its host bits cleared. *)
Lemma get_network_value :
  exists network,
    IPAnalyzer.get_network a = Ok network /\ wf_address network
    /\ IPv4Address.to_uint32 network = x - x mod 2 ^ (32 - p).
Proof.
  eexists. split; [apply get_network_closed, a_wf |].
  split; [apply of_uint32_wf |].
  pose proof stored_value_range. pose proof host_bits_range.
  pose proof mod_host_bits_range.
  unfold netmask_value. fold p x. rewrite land_high_mask by assumption.
  apply to_uint32_of_uint32. lia.
Qed.

(** The broadcast address is the stored address with its host bits set. *)
Lemma get_broadcast_value :
  exists broadcast,
    IPAnalyzer.get_broadcast a = Ok broadcast /\ wf_address broadcast
    /\ IPv4Address.to_uint32 broadcast
       = x - x mod 2 ^ (32 - p) + (2 ^ (32 - p) - 1).
Proof.
  eexists. split; [apply get_broadcast_closed, a_wf |].
  split; [apply of_uint32_wf |].
  pose proof stored_value_range as Hx. pose proof host_bits_range as Hk.
  pose proof mod_host_bits_range. pose proof (pow2_le_32 _ Hk).
  unfold hostmask_value. fold p x. rewrite lor_low_mask by assumption.
  apply to_uint32_of_uint32.
  assert (2 ^ (32 - p) * (x / 2 ^ (32 - p)) + 2 ^ (32 - p) <= 2 ^ 32).
  { replace (2 ^ 32) with (2 ^ (32 - p) * 2 ^ p)
      by (rewrite <- Z.pow_add_r by (subst p; destruct a_wf; lia); f_equal; lia).
    assert (x / 2 ^ (32 - p) < 2 ^ p).
    { apply Z.div_lt_upper_bound; [lia |].
      rewrite <- Z.pow_add_r by (subst p; destruct a_wf; lia).
      replace (32 - p + p) with 32 by lia. lia. }
    nia. }
  pose proof (Z.div_mod x (2 ^ (32 - p)) ltac:(lia)). lia.
Qed.

End DerivedValues.

(** * Host range and host count *)

(** The number of hosts the specification gives for a prefix length. *)
Definition host_count (p : Z) : Z :=
  if p =? 32 then 1 else if p =? 31 then 2 else 2 ^ (32 - p) - 2.

Section HostRange.

Variable a : IPAnalyzer.t.
Hypothesis a_wf : wf_analyzer a.

(** For a prefix length of 32 network, broadcast and both ends of the host
    range are the stored address. *)
Lemma host_range_32 :
  IPAnalyzer.cidr_ a = 32 ->
  IPAnalyzer.get_network a = Ok (IPAnalyzer.ip_ a)
  /\ IPAnalyzer.get_broadcast a = Ok (IPAnalyzer.ip_ a)
  /\ IPAnalyzer.get_host_range a = Ok (IPAnalyzer.ip_ a, IPAnalyzer.ip_ a).
Proof.
  intros Hp. destruct a_wf as [Hip _].
  unfold IPAnalyzer.get_host_range, IPAnalyzer.get_broadcast, IPAnalyzer.get_network.
  rewrite Hp. cbn [Z.eqb Pos.eqb bind].
  repeat split.
  change 0xFFFFFFFF with (Z.ones 32).
  rewrite Z.land_ones, Z.mod_small by (try apply to_uint32_range_wf; assumption || lia).
  now rewrite of_uint32_to_uint32.
Qed.

(** For any other prefix length the ends are network + 1 and broadcast - 1,
    and neither the increment nor the decrement wraps around. *)
Lemma host_range_below_32 :
  IPAnalyzer.cidr_ a <> 32 ->
  exists network broadcast,
    IPAnalyzer.get_network a = Ok network
    /\ IPAnalyzer.get_broadcast a = Ok broadcast
    /\ IPAnalyzer.get_host_range a
       = Ok (IPv4Address.of_uint32 (IPv4Address.to_uint32 network + 1),
             IPv4Address.of_uint32 (IPv4Address.to_uint32 broadcast - 1))
    /\ IPv4Address.to_uint32 network + 1 < 2 ^ 32
    /\ 0 <= IPv4Address.to_uint32 broadcast - 1.
Proof.
  intros Hp.
  destruct (get_network_value a a_wf) as (network & Hn & Wn & Vn).
  destruct (get_broadcast_value a a_wf) as (broadcast & Hb & Wb & Vb).
  pose proof (to_uint32_range_wf network Wn) as Rn.
  pose proof (to_uint32_range_wf broadcast Wb) as Rb.
  pose proof (mod_host_bits_range a a_wf) as Hm.
  assert (Hk : 2 <= 2 ^ (32 - IPAnalyzer.cidr_ a)).
  { change 2 with (2 ^ 1) at 1. apply Z.pow_le_mono_r; destruct a_wf; lia. }
  exists network, broadcast. repeat split; try assumption; try lia.
  unfold IPAnalyzer.get_host_range.
  destruct (Z.eqb_spec (IPAnalyzer.cidr_ a) 32); [contradiction |].
  rewrite Hn, Hb. cbn [bind]. now rewrite !to_uint32_small by lia.
Qed.

(** For a prefix length of 31 this makes the first end the broadcast address
    and the last end the network address. *)
Lemma host_range_31 :
  IPAnalyzer.cidr_ a = 31 ->
  exists network broadcast,
    IPAnalyzer.get_network a = Ok network
    /\ IPAnalyzer.get_broadcast a = Ok broadcast
    /\ IPAnalyzer.get_host_range a = Ok (broadcast, network)
    /\ IPv4Address.to_uint32 broadcast = IPv4Address.to_uint32 network + 1.
Proof.
  intros Hp.
  destruct (host_range_below_32 ltac:(lia)) as (network & broadcast & Hn & Hb & Hr & _).
  destruct (get_network_value a a_wf) as (network' & Hn' & Wn & Vn).
  destruct (get_broadcast_value a a_wf) as (broadcast' & Hb' & Wb & Vb).
  rewrite Hn in Hn'. rewrite Hb in Hb'.
  injection Hn' as <-. injection Hb' as <-.
  rewrite Hp in Vn, Vb. change (2 ^ (32 - 31)) with 2 in Vn, Vb.
  exists network, broadcast. repeat split; try assumption; [| lia].
  rewrite Hr. f_equal. f_equal.
  - replace (IPv4Address.to_uint32 network + 1) with (IPv4Address.to_uint32 broadcast) by lia.
    now apply of_uint32_to_uint32.
  - replace (IPv4Address.to_uint32 broadcast - 1) with (IPv4Address.to_uint32 network) by lia.
    now apply of_uint32_to_uint32.
Qed.

End HostRange.

Section HostCount.

Lemma shl_u64_one n : 0 <= n <= 32 -> Cxx.shl_u64 1 n = Ok (2 ^ n).
Proof.
  intros Hn. unfold Cxx.shl_u64.
  replace ((0 <=? n) && (n <? 64)) with true by (symmetry; apply andb_true_iff; lia).
  rewrite Z.shiftl_mul_pow2, Z.mul_1_l by lia.
  unfold Cxx.to_uint64. rewrite Z.mod_small; [reflexivity |].
  pose proof (pow2_le_32 n Hn). change (2 ^ 32) with 4294967296 in *.
  change (2 ^ 64) with 18446744073709551616. lia.
Qed.

Lemma get_num_hosts_value a :
  0 <= IPAnalyzer.cidr_ a <= 32 ->
  IPAnalyzer.get_num_hosts a = Ok (host_count (IPAnalyzer.cidr_ a)).
Proof.
  intros Hp. unfold IPAnalyzer.get_num_hosts, host_count.
  destruct (Z.eqb_spec (IPAnalyzer.cidr_ a) 32); [reflexivity |].
  destruct (Z.eqb_spec (IPAnalyzer.cidr_ a) 31); [reflexivity |].
  destruct (Z.eqb_spec (IPAnalyzer.cidr_ a) 0) as [-> | Hnz]; [reflexivity |].
  rewrite shl_u64_one by lia. cbn [bind].
  pose proof (pow2_le_32 (32 - IPAnalyzer.cidr_ a) ltac:(lia)) as Hpow.
  assert (4 <= 2 ^ (32 - IPAnalyzer.cidr_ a)).
  { change 4 with (2 ^ 2). apply Z.pow_le_mono_r; lia. }
  unfold Cxx.to_uint64. rewrite Z.mod_small.
  - rewrite to_uint32_small by lia. reflexivity.
  - change (2 ^ 32) with 4294967296 in *.
    change (2 ^ 64) with 18446744073709551616. lia.
Qed.

Lemma host_count_low p : 0 <= p <= 30 -> host_count p = 2 ^ (32 - p) - 2.
Proof.
  intros Hp. unfold host_count.
  destruct (Z.eqb_spec p 32); [lia |]. destruct (Z.eqb_spec p 31); [lia | reflexivity].
Qed.

Lemma host_count_low_bound p : 0 <= p <= 30 -> 2 <= host_count p.
Proof.
  intros Hp. rewrite host_count_low by assumption.
  assert (2 ^ 2 <= 2 ^ (32 - p)) by (apply Z.pow_le_mono_r; lia).
  change (2 ^ 2) with 4 in *. lia.
Qed.

Lemma host_count_below_30 p : 0 <= p < 30 -> 6 <= host_count p.
Proof.
  intros Hp. rewrite host_count_low by lia.
  assert (2 ^ 3 <= 2 ^ (32 - p)) by (apply Z.pow_le_mono_r; lia).
  change (2 ^ 3) with 8 in *. lia.
Qed.

Lemma host_count_strict p q : 0 <= p < q -> q <= 30 -> host_count q < host_count p.
Proof.
  intros Hp Hq. rewrite !host_count_low by lia.
  assert (2 ^ (32 - q) < 2 ^ (32 - p)) by (apply Z.pow_lt_mono_r; lia).
  lia.
Qed.

End HostCount.

(** * Netmask bytes *)

(** [0xFF << (8 - r)] kept to one byte: the byte of the specification whose
    [r] high-order bits are set. *)
Definition leading_bits_byte (r : Z) : Z := Cxx.to_uint8 (Z.shiftl 0xFF (8 - r)).

(** Byte [i] of the netmask of prefix length [p], in the specification's
    words: [p / 8] bytes [0xFF], then a byte with [p mod 8] leading bits when
    [p mod 8 > 0], then zeros. *)
Definition netmask_byte (p i : Z) : Z :=
  if i <? p / 8 then 0xFF
  else if (i =? p / 8) && (0 <? p mod 8) then leading_bits_byte (p mod 8)
  else 0.

Section Netmask.

Lemma upto_32 (P : Z -> Prop) :
  (forall n : nat, (n <= 32)%nat -> P (Z.of_nat n)) ->
  forall p, 0 <= p <= 32 -> P p.
Proof. intros H p Hp. rewrite <- (Z2Nat.id p) by lia. apply H. lia. Qed.

Lemma netmask_bytes p :
  0 <= p <= 32 ->
  IPv4Address.of_uint32 (netmask_value p)
  = ipv4 (netmask_byte p 0) (netmask_byte p 1) (netmask_byte p 2) (netmask_byte p 3).
Proof.
  revert p. apply upto_32. intros n Hn.
  do 33 (destruct n as [| n]; [vm_compute; reflexivity |]). lia.
Qed.

(** The byte has its [r] high-order bits set and no other. *)
Lemma leading_bits_byte_bits r j :
  0 <= r <= 8 -> 0 <= j < 8 ->
  Z.testbit (leading_bits_byte r) j = (8 - r <=? j).
Proof.
  intros Hr Hj. unfold leading_bits_byte, Cxx.to_uint8.
  rewrite Z.mod_pow2_bits_low, Z.shiftl_spec by lia.
  change 0xFF with (Z.ones 8). rewrite Z.testbit_ones by lia.
  destruct (Z.leb_spec (8 - r) j); destruct (Z.leb_spec 0 (j - (8 - r)));
    destruct (Z.ltb_spec (j - (8 - r)) 8); cbn; reflexivity || lia.
Qed.

(** The mask has its [p] leading bits set and no other. *)
Lemma netmask_value_bits p j :
  0 <= p <= 32 -> 0 <= j < 32 ->
  Z.testbit (netmask_value p) j = (32 - p <=? j).
Proof.
  intros Hp Hj. unfold netmask_value.
  replace (2 ^ 32 - 2 ^ (32 - p)) with (Z.shiftl (Z.ones p) (32 - p)).
  - rewrite Z.shiftl_spec, Z.testbit_ones by lia.
    destruct (Z.leb_spec (32 - p) j); destruct (Z.leb_spec 0 (j - (32 - p)));
      destruct (Z.ltb_spec (j - (32 - p)) p); cbn; reflexivity || lia.
  - rewrite Z.shiftl_mul_pow2, Z.ones_equiv by lia.
    unfold Z.pred. rewrite Z.mul_add_distr_r, <- Z.pow_add_r by lia.
    replace (p + (32 - p)) with 32 by lia. lia.
Qed.

End Netmask.

(** * Private ranges *)

(** [x] lies in the block [base/len]: both have the same [len] leading bits. *)
Definition in_cidr_block (x base len : Z) : Prop :=
  Z.shiftr x (32 - len) = Z.shiftr base (32 - len).

Section PrivateRanges.

Lemma block_10 x : in_cidr_block x 0x0A000000 8 <-> 0x0A000000 <= x <= 0x0AFFFFFF.
Proof.
  unfold in_cidr_block. change (32 - 8) with 24.
  rewrite !Z.shiftr_div_pow2 by lia.
  change (0x0A000000 / 2 ^ 24) with 10. change (2 ^ 24) with 16777216.
  split; intros H; Z.div_mod_to_equations; lia.
Qed.

Lemma block_172_16 x : in_cidr_block x 0xAC100000 12 <-> 0xAC100000 <= x <= 0xAC1FFFFF.
Proof.
  unfold in_cidr_block. change (32 - 12) with 20.
  rewrite !Z.shiftr_div_pow2 by lia.
  change (0xAC100000 / 2 ^ 20) with 2753. change (2 ^ 20) with 1048576.
  split; intros H; Z.div_mod_to_equations; lia.
Qed.

Lemma block_192_168 x : in_cidr_block x 0xC0A80000 16 <-> 0xC0A80000 <= x <= 0xC0A8FFFF.
Proof.
  unfold in_cidr_block. change (32 - 16) with 16.
  rewrite !Z.shiftr_div_pow2 by lia.
  change (0xC0A80000 / 2 ^ 16) with 49320. change (2 ^ 16) with 65536.
  split; intros H; Z.div_mod_to_equations; lia.
Qed.

Lemma is_private_ranges a :
  IPAnalyzer.is_private a = true <->
  let ip := IPv4Address.to_uint32 (IPAnalyzer.ip_ a) in
  0x0A000000 <= ip <= 0x0AFFFFFF \/ 0xAC100000 <= ip <= 0xAC1FFFFF
  \/ 0xC0A80000 <= ip <= 0xC0A8FFFF.
Proof.
  unfold IPAnalyzer.is_private. cbv zeta.
  rewrite !orb_true_iff, !andb_true_iff, !Z.leb_le. tauto.
Qed.

(** The same three blocks, octet by octet. *)
Lemma is_private_octets a :
  wf_address (IPAnalyzer.ip_ a) ->
  IPAnalyzer.is_private a = true <->
  let ip := IPAnalyzer.ip_ a in
  IPv4Address.octet0 ip = 10
  \/ (IPv4Address.octet0 ip = 172 /\ 16 <= IPv4Address.octet1 ip <= 31)
  \/ (IPv4Address.octet0 ip = 192 /\ IPv4Address.octet1 ip = 168).
Proof.
  intros Hwf. rewrite is_private_ranges. cbv zeta.
  rewrite to_uint32_be_value by assumption.
  destruct Hwf as (H0 & H1 & H2 & H3). unfold octet_ok, be_value in *.
  change (2 ^ 24) with 16777216. change (2 ^ 16) with 65536. change (2 ^ 8) with 256.
  lia.
Qed.

End PrivateRanges.

(** * The scenarios of [tests/ip_analyzer_tests.cc] *)

Section Tests.

Let address (s : string) : result IPv4Address.t :=
  IPv4Address.of_string_view (Cxx.view_of s).

Example test_address_methods :
  exists ip, address "192.168.0.1" = Ok ip
    /\ IPv4Address.to_string ip = "192.168.0.1"%string
    /\ IPv4Address.to_uint32 ip = 3232235521.
Proof. eexists. repeat split. Qed.

Example test_analyzer_functionality :
  exists a, IPAnalyzer.of_string "192.168.0.1/24" = Ok a
    /\ IPAnalyzer.get_ip a = ipv4 192 168 0 1
    /\ IPAnalyzer.get_network a = Ok (ipv4 192 168 0 0)
    /\ IPAnalyzer.get_netmask a = Ok (ipv4 255 255 255 0)
    /\ IPAnalyzer.get_broadcast a = Ok (ipv4 192 168 0 255)
    /\ IPAnalyzer.get_host_range a = Ok (ipv4 192 168 0 1, ipv4 192 168 0 254)
    /\ IPAnalyzer.get_num_hosts a = Ok 254
    /\ IPAnalyzer.is_private a = true
    /\ IPAnalyzer.get_cidr a = 24.
Proof. eexists. repeat split. Qed.

Example test_invalid_address_formats :
  is_ok (address "256.0.0.1") = false /\ is_ok (address "192.168.0") = false
  /\ is_ok (address "192.168.0.1.2") = false /\ is_ok (address "192.168.0.a") = false.
Proof. repeat split. Qed.

Example test_minimum_cidr :
  exists a, IPAnalyzer.of_string "192.168.0.1/0" = Ok a
    /\ IPAnalyzer.get_network a = Ok (ipv4 0 0 0 0)
    /\ IPAnalyzer.get_broadcast a = Ok (ipv4 255 255 255 255)
    /\ IPAnalyzer.get_num_hosts a = Ok 4294967294.
Proof. eexists. repeat split. Qed.

Example test_maximum_cidr :
  exists a, IPAnalyzer.of_string "192.168.0.1/32" = Ok a
    /\ IPAnalyzer.get_network a = Ok (ipv4 192 168 0 1)
    /\ IPAnalyzer.get_broadcast a = Ok (ipv4 192 168 0 1)
    /\ IPAnalyzer.get_num_hosts a = Ok 1
    /\ IPAnalyzer.get_host_range a = Ok (ipv4 192 168 0 1, ipv4 192 168 0 1).
Proof. eexists. repeat split. Qed.

Example test_invalid_cidr_values :
  IPAnalyzer.of_string "192.168.0.1/33" = Throw (invalid_argument "Invalid CIDR value")
  /\ IPAnalyzer.of_string "192.168.0.1/-1" = Throw (invalid_argument "Invalid CIDR value").
Proof. split; reflexivity. Qed.

End Tests.

(** * The claims of the specification *)

(** C1.  The host range of a /31 network, on the input "192.168.0.0/31":
    the network address is 192.168.0.0 and the broadcast address is
    192.168.0.1, but [get_host_range] returns the pair (192.168.0.1,
    192.168.0.0), network + 1 and broadcast - 1, and not the pair (network,
    broadcast) that the specification gives for the prefix lengths 31 and
    32.  [get_host_range] singles out 32 only, while [get_num_hosts] singles
    out 31 as well. *)
Theorem host_range_slash_31 :
  exists a,
    IPAnalyzer.of_string "192.168.0.0/31" = Ok a
    /\ IPAnalyzer.get_cidr a = 31
    /\ IPAnalyzer.get_num_hosts a = Ok 2
    /\ IPAnalyzer.get_network a = Ok (ipv4 192 168 0 0)
    /\ IPAnalyzer.get_broadcast a = Ok (ipv4 192 168 0 1)
    /\ IPAnalyzer.get_host_range a = Ok (ipv4 192 168 0 1, ipv4 192 168 0 0).
Proof. eexists. repeat split. Qed.

(** C2, the claim as the specification states it, refuted: "192.168.0.1" is
    a dotted quad without ['/'], and the constructor does not build an
    analyzer of prefix length 32 from it. *)
Lemma bare_address_rejected :
  dotted_quad "192.168.0.1" 192 168 0 1
  /\ all_chars (is_not "/") "192.168.0.1" = true
  /\ ~ (exists a, IPAnalyzer.of_string "192.168.0.1" = Ok a /\ IPAnalyzer.get_cidr a = 32).
Proof.
  split; [| split].
  - exists "192"%string, "168"%string, "0"%string, "1"%string.
    unfold octet_text, decimal_group. repeat split; discriminate || lia.
  - reflexivity.
  - intros (a & Ha & _). discriminate Ha.
Qed.

(** C2, amended.  For every input string without a ['/'] the construction of
    an analyzer fails, and no prefix length is assumed; when the string is a
    dotted quad the failure is the [invalid_argument] "Invalid IP/CIDR
    format".  The single host is written with an explicit "/32". *)
Theorem ctor_requires_slash s :
  all_chars (is_not "/") s = true ->
  (exists e, IPAnalyzer.of_string s = Throw e)
  /\ (forall a b c d, dotted_quad s a b c d ->
        IPAnalyzer.of_string s = Throw (invalid_argument "Invalid IP/CIDR format")
        /\ IPAnalyzer.of_string (s ++ "/32") = Ok (analyzer (ipv4 a b c d) 32)).
Proof.
  intros Hslash.
  assert (Hfind : Cxx.sv_find (Cxx.view_of s) "/" = None)
    by (rewrite sv_find_view_of; now apply find_char_absent).
  split; [now apply ctor_no_slash |].
  intros a b c d Hq. split.
  - unfold IPAnalyzer.of_string. rewrite ctor_unfold, Hfind.
    unfold Cxx.view_of. rewrite <- (append_nil_r s) at 1.
    rewrite (of_string_view_dotted_quad s a b c d "" _ Hq); reflexivity.
  - change (s ++ "/32")%string with (s ++ "/" ++ "32")%string.
    rewrite (ctor_dotted_quad_prefix s a b c d "32" Hq); [reflexivity | | ].
    + split; [discriminate | reflexivity].
    + vm_compute. discriminate.
Qed.

Lemma ctor_requires_slash_witness :
  all_chars (is_not "/") "10.0.0.1" = true
  /\ dotted_quad "10.0.0.1" 10 0 0 1
  /\ IPAnalyzer.of_string "10.0.0.1" = Throw (invalid_argument "Invalid IP/CIDR format").
Proof.
  assert (Hq : dotted_quad "10.0.0.1" 10 0 0 1).
  { exists "10"%string, "0"%string, "0"%string, "1"%string.
    unfold octet_text, decimal_group. repeat split; discriminate || lia. }
  split; [reflexivity |]. split; [exact Hq |].
  exact (proj1 (proj2 (ctor_requires_slash "10.0.0.1" eq_refl) 10 0 0 1 Hq)).
Defined.

(** C3.  On "192.168.0.1/256" the suffix is read as the integer 256, which
    exceeds 32, and the constructor builds an analyzer of prefix length 0
    where the specification requires a failure: the suffix is reduced to
    [uint8_t] before it is compared with 32.  The same happens for 288
    (prefix length 32) and for the negative suffix -256 (prefix length 0),
    while 33 and -1 are refused. *)
Theorem prefix_256_accepted :
  Cxx.stoi "256" = Ok 256
  /\ IPAnalyzer.of_string "192.168.0.1/256" = Ok (analyzer (ipv4 192 168 0 1) 0)
  /\ IPAnalyzer.of_string "192.168.0.1/288" = Ok (analyzer (ipv4 192 168 0 1) 32)
  /\ IPAnalyzer.of_string "192.168.0.1/-256" = Ok (analyzer (ipv4 192 168 0 1) 0)
  /\ IPAnalyzer.of_string "192.168.0.1/33" = Throw (invalid_argument "Invalid CIDR value").
Proof. repeat split. Qed.

(** C4.  The address constructor on "192.168.0.1a": the text is not made of
    four decimal groups, its last group holds a letter after the digit, and
    the constructor accepts it as 192.168.0.1 where the specification
    requires a failure for an octet with non-numeric characters.  [stoi]
    stops at the letter and the constructor does not look at what is left of
    the token.  The octet "a" of the test is refused, because there [stoi]
    finds no digit at all, and the value of an octet is checked against
    [0,255]: the validation is there and misses the end of the token. *)
Theorem trailing_text_accepted :
  IPv4Address.of_string_view (Cxx.view_of "192.168.0.1a") = Ok (ipv4 192 168 0 1)
  /\ ~ (exists a b c d, dotted_quad "192.168.0.1a" a b c d)
  /\ Cxx.stoi "1a" = Ok 1
  /\ IPv4Address.of_string_view (Cxx.view_of "192.168.0.a")
     = Throw (invalid_argument "stoi").
Proof.
  split; [reflexivity |]. split; [| split; reflexivity].
  intros (a & b & c & d & H).
  apply (dotted_quad_chars _ _ _ _ _ digit_or_dot) in H.
  - discriminate H.
  - intros x Hx. unfold digit_or_dot. now rewrite Hx.
  - reflexivity.
Qed.

(** What the address constructor does on every text, the accepted ones in
    full.  It reads the text up to the first NUL and succeeds exactly when
    that text is four groups without dots, separated by dots, with at most
    one more dot at the end, and each group reads as an integer of [0,255]
    the way [stoi] reads: white space and a sign may come first, and
    whatever follows the digits is ignored.  The integers are the octets, in
    order.  So every dotted quad is accepted with its four numbers as
    octets, also when text other than a digit, a dot or a NUL follows it.
    On every other input the constructor throws, and what it throws is an
    [invalid_argument] or the [out_of_range] of [stoi]. *)
Theorem ipv4_parse_lenient s :
  (forall ip,
      IPv4Address.of_string_view (Cxx.view_of s) = Ok ip <->
      exists g0 g1 g2 g3 tail,
        Cxx.c_str s = (g0 ++ "." ++ g1 ++ "." ++ g2 ++ "." ++ g3 ++ tail)%string
        /\ (tail = EmptyString \/ tail = "."%string)
        /\ lenient_octet g0 (IPv4Address.octet0 ip)
        /\ lenient_octet g1 (IPv4Address.octet1 ip)
        /\ lenient_octet g2 (IPv4Address.octet2 ip)
        /\ lenient_octet g3 (IPv4Address.octet3 ip))
  /\ (forall q trailer a b c d,
        s = (q ++ trailer)%string -> dotted_quad q a b c d ->
        Cxx.starts_with_digit trailer = false ->
        all_chars (is_not ".") trailer = true ->
        all_chars (is_not zero) trailer = true ->
        IPv4Address.of_string_view (Cxx.view_of s) = Ok (ipv4 a b c d))
  /\ (forall e,
        IPv4Address.of_string_view (Cxx.view_of s) = Throw e ->
        (exists what, e = invalid_argument what) \/ e = out_of_range "stoi").
Proof.
  split; [| split].
  - intros ip. apply of_string_view_ok_text.
  - intros q trailer a b c d -> Hq Htrail Hdots Hnul.
    now apply of_string_view_dotted_quad.
  - intros e. apply of_string_view_throws.
Qed.

Lemma ipv4_parse_lenient_witness :
  dotted_quad "10.0.0.1" 10 0 0 1
  /\ IPv4Address.of_string_view (Cxx.view_of "10.0.0.1/8") = Ok (ipv4 10 0 0 1).
Proof.
  assert (Hq : dotted_quad "10.0.0.1" 10 0 0 1).
  { exists "10"%string, "0"%string, "0"%string, "1"%string.
    unfold octet_text, decimal_group. repeat split; discriminate || lia. }
  split; [exact Hq |].
  apply (proj1 (proj2 (ipv4_parse_lenient "10.0.0.1/8")) "10.0.0.1"%string "/8"%string);
    [reflexivity | exact Hq | reflexivity | reflexivity | reflexivity].
Defined.

(** C5.  For every well-formed analyzer of prefix length [p],
    [get_num_hosts] returns 1 when [p = 32], 2 when [p = 31], and
    [2^(32-p) - 2] when [0 <= p <= 30]; that number fits 32 bits, so nothing
    is lost in the unsigned arithmetic that computes it. *)
Theorem get_num_hosts_by_prefix a :
  wf_analyzer a ->
  let p := IPAnalyzer.cidr_ a in
  (p = 32 -> IPAnalyzer.get_num_hosts a = Ok 1)
  /\ (p = 31 -> IPAnalyzer.get_num_hosts a = Ok 2)
  /\ (0 <= p <= 30 ->
      IPAnalyzer.get_num_hosts a = Ok (2 ^ (32 - p) - 2)
      /\ 0 <= 2 ^ (32 - p) - 2 < 2 ^ 32).
Proof.
  intros [_ Hp] p. subst p.
  rewrite get_num_hosts_value by assumption.
  split; [| split].
  - intros ->. reflexivity.
  - intros ->. reflexivity.
  - intros Hlow. rewrite host_count_low by assumption.
    split; [reflexivity |].
    pose proof (host_count_low_bound _ Hlow) as Hge.
    rewrite host_count_low in Hge by assumption.
    pose proof (pow2_le_32 (32 - IPAnalyzer.cidr_ a) ltac:(lia)). lia.
Qed.

Lemma get_num_hosts_by_prefix_witness :
  wf_analyzer (analyzer (ipv4 192 168 178 0) 24)
  /\ IPAnalyzer.get_num_hosts (analyzer (ipv4 192 168 178 0) 24) = Ok 254.
Proof.
  assert (Hwf : wf_analyzer (analyzer (ipv4 192 168 178 0) 24))
    by (unfold wf_analyzer, wf_address, octet_ok; cbn; lia).
  split; [exact Hwf |].
  apply (proj2 (proj2 (get_num_hosts_by_prefix _ Hwf))). cbn. lia.
Defined.

(** C6.  For every well-formed analyzer of prefix length [p], [get_netmask]
    returns the four bytes of which the first [p / 8] are [0xFF], the next
    one, when [p mod 8 > 0], has its [p mod 8] high-order bits set and no
    other, and the others are 0: the 32-bit mask whose [p] leading bits are
    set.  The stored address plays no part in it. *)
Theorem get_netmask_leading_bits a :
  wf_analyzer a ->
  let p := IPAnalyzer.cidr_ a in
  exists mask,
    IPAnalyzer.get_netmask a = Ok mask
    /\ (forall i, (i < 4)%nat -> IPv4Address.get mask i = netmask_byte p (Z.of_nat i))
    /\ (0 < p mod 8 -> forall j, 0 <= j < 8 ->
          Z.testbit (IPv4Address.get mask (Z.to_nat (p / 8))) j = (8 - p mod 8 <=? j))
    /\ (forall j, 0 <= j < 32 ->
          Z.testbit (IPv4Address.to_uint32 mask) j = (32 - p <=? j))
    /\ (forall ip, IPAnalyzer.get_netmask (analyzer ip p) = Ok mask).
Proof.
  intros [_ Hp] p. subst p. set (p := IPAnalyzer.cidr_ a) in *.
  exists (IPv4Address.of_uint32 (netmask_value p)).
  split; [now apply get_netmask_closed |].
  assert (Hbytes : forall i, (i < 4)%nat ->
            IPv4Address.get (IPv4Address.of_uint32 (netmask_value p)) i
            = netmask_byte p (Z.of_nat i)).
  { intros i Hi. rewrite netmask_bytes by assumption.
    destruct i as [| [| [| [| i]]]]; solve [reflexivity | lia]. }
  split; [exact Hbytes |]. split; [| split].
  - intros Hrem j Hj.
    assert (Hq : 0 <= p / 8 < 4) by (Z.div_mod_to_equations; lia).
    rewrite Hbytes, Z2Nat.id by lia. unfold netmask_byte.
    rewrite Z.ltb_irrefl, Z.eqb_refl.
    replace (0 <? p mod 8) with true by (symmetry; now apply Z.ltb_lt).
    apply leading_bits_byte_bits; [| assumption].
    pose proof (Z.mod_pos_bound p 8). lia.
  - intros j Hj.
    rewrite to_uint32_of_uint32 by now apply netmask_value_range.
    now apply netmask_value_bits.
  - intros ip. now apply get_netmask_closed.
Qed.

Lemma get_netmask_leading_bits_witness :
  wf_analyzer (analyzer (ipv4 10 1 2 3) 19)
  /\ exists mask,
       IPAnalyzer.get_netmask (analyzer (ipv4 10 1 2 3) 19) = Ok mask
       /\ IPv4Address.get mask 2 = 224.
Proof.
  assert (Hwf : wf_analyzer (analyzer (ipv4 10 1 2 3) 19))
    by (unfold wf_analyzer, wf_address, octet_ok; cbn; lia).
  split; [exact Hwf |].
  destruct (get_netmask_leading_bits _ Hwf) as (mask & Hmask & Hbytes & _).
  exists mask. split; [exact Hmask |].
  rewrite (Hbytes 2%nat) by lia. reflexivity.
Defined.

(** C7.  For every well-formed analyzer, [is_private] is true if and only if
    the stored address lies in 10.0.0.0/8, in 172.16.0.0/12 or in
    192.168.0.0/16, read as blocks of leading bits or octet by octet; the
    prefix length of the analyzer plays no part in it. *)
Theorem is_private_blocks a :
  wf_analyzer a ->
  let ip := IPAnalyzer.ip_ a in
  let x := IPv4Address.to_uint32 ip in
  (IPAnalyzer.is_private a = true <->
     in_cidr_block x 0x0A000000 8 \/ in_cidr_block x 0xAC100000 12
     \/ in_cidr_block x 0xC0A80000 16)
  /\ (IPAnalyzer.is_private a = true <->
        IPv4Address.octet0 ip = 10
        \/ (IPv4Address.octet0 ip = 172 /\ 16 <= IPv4Address.octet1 ip <= 31)
        \/ (IPv4Address.octet0 ip = 192 /\ IPv4Address.octet1 ip = 168))
  /\ (forall p, IPAnalyzer.is_private (analyzer ip p) = IPAnalyzer.is_private a).
Proof.
  intros [Hip _] ip x. split; [| split].
  - rewrite is_private_ranges, block_10, block_172_16, block_192_168. reflexivity.
  - now apply is_private_octets.
  - intros p. reflexivity.
Qed.

Lemma is_private_blocks_witness :
  wf_analyzer (analyzer (ipv4 172 20 1 1) 8)
  /\ IPAnalyzer.is_private (analyzer (ipv4 172 20 1 1) 8) = true.
Proof.
  assert (Hwf : wf_analyzer (analyzer (ipv4 172 20 1 1) 8))
    by (unfold wf_analyzer, wf_address, octet_ok; cbn; lia).
  split; [exact Hwf |].
  apply (proj1 (proj2 (is_private_blocks _ Hwf))). cbn. lia.
Defined.

(** C8.  For every well-formed analyzer, that is an address of four octets
    and a prefix length of at most 32, each of [get_network], [get_netmask],
    [get_broadcast], [get_host_range] and [get_num_hosts] returns a value:
    no exception is thrown, in particular no shift has a count outside the
    width of its operand, and the literal addresses the code parses on the
    way are accepted.  The addresses returned are four octets again and the
    host count fits 32 bits.  [get_ip], [is_private] and [get_cidr] read the
    stored state without any step that could fail. *)
Theorem derivations_total a :
  wf_analyzer a ->
  (exists network, IPAnalyzer.get_network a = Ok network /\ wf_address network)
  /\ (exists mask, IPAnalyzer.get_netmask a = Ok mask /\ wf_address mask)
  /\ (exists broadcast,
         IPAnalyzer.get_broadcast a = Ok broadcast /\ wf_address broadcast)
  /\ (exists first last,
         IPAnalyzer.get_host_range a = Ok (first, last)
         /\ wf_address first /\ wf_address last)
  /\ (exists hosts, IPAnalyzer.get_num_hosts a = Ok hosts /\ 0 < hosts < 2 ^ 32)
  /\ wf_address (IPAnalyzer.get_ip a)
  /\ 0 <= IPAnalyzer.get_cidr a <= 32
  /\ IPAnalyzer.is_private a = IPAnalyzer.is_private (analyzer (IPAnalyzer.ip_ a) 0).
Proof.
  intros Hwf. pose proof Hwf as [Hip Hp].
  split; [| split; [| split; [| split; [| split]]]].
  - destruct (get_network_value a Hwf) as (network & Hn & Wn & _). eauto.
  - eexists. split; [now apply get_netmask_closed | apply of_uint32_wf].
  - destruct (get_broadcast_value a Hwf) as (broadcast & Hb & Wb & _). eauto.
  - destruct (Z.eq_dec (IPAnalyzer.cidr_ a) 32) as [H32 | H32].
    + destruct (host_range_32 a Hwf H32) as (_ & _ & Hr). eauto.
    + destruct (host_range_below_32 a Hwf H32) as (n & b & _ & _ & Hr & _).
      do 2 eexists. split; [exact Hr |]. split; apply of_uint32_wf.
  - eexists. split; [now apply get_num_hosts_value |].
    unfold host_count.
    destruct (Z.eqb_spec (IPAnalyzer.cidr_ a) 32); [lia |].
    destruct (Z.eqb_spec (IPAnalyzer.cidr_ a) 31); [lia |].
    pose proof (host_count_low_bound (IPAnalyzer.cidr_ a) ltac:(lia)) as Hlow.
    rewrite host_count_low in Hlow by lia.
    pose proof (pow2_le_32 (32 - IPAnalyzer.cidr_ a) ltac:(lia)). lia.
  - split; [exact Hip | split; [exact Hp | reflexivity]].
Qed.

Lemma derivations_total_witness :
  wf_analyzer (analyzer (ipv4 8 8 8 8) 0)
  /\ exists first last,
       IPAnalyzer.get_host_range (analyzer (ipv4 8 8 8 8) 0) = Ok (first, last).
Proof.
  assert (Hwf : wf_analyzer (analyzer (ipv4 8 8 8 8) 0))
    by (unfold wf_analyzer, wf_address, octet_ok; cbn; lia).
  split; [exact Hwf |].
  destruct (derivations_total _ Hwf) as (_ & _ & _ & (first & last & Hr & _) & _).
  exists first, last. exact Hr.
Defined.

(** C9.  For every address and all prefix lengths [p < q] of [0,32], the
    host count for [q] is at most the host count for [p]; it is strictly
    less whenever [q] is not one of the two special prefix lengths 31 and
    32, and the two counts are equal only for [p = 30] and [q = 31], where
    the count 2 of a /30 meets the count 2 chosen for a /31. *)
Theorem host_count_monotone ip p q :
  0 <= p -> p < q -> q <= 32 ->
  exists hosts_p hosts_q,
    IPAnalyzer.get_num_hosts (analyzer ip p) = Ok hosts_p
    /\ IPAnalyzer.get_num_hosts (analyzer ip q) = Ok hosts_q
    /\ hosts_q <= hosts_p
    /\ (q <= 30 -> hosts_q < hosts_p)
    /\ (hosts_q = hosts_p <-> p = 30 /\ q = 31).
Proof.
  intros Hp Hpq Hq.
  exists (host_count p), (host_count q).
  split; [apply get_num_hosts_value; cbn; lia |].
  split; [apply get_num_hosts_value; cbn; lia |].
  destruct (Z.eq_dec q 32) as [-> | Hq32].
  - change (host_count 32) with 1.
    assert (2 <= host_count p).
    { destruct (Z.eq_dec p 31) as [-> | Hp31]; [reflexivity |].
      apply host_count_low_bound. lia. }
    repeat split; lia.
  - destruct (Z.eq_dec q 31) as [-> | Hq31].
    + change (host_count 31) with 2.
      pose proof (host_count_low_bound p ltac:(lia)).
      destruct (Z.eq_dec p 30) as [-> | Hp30].
      * change (host_count 30) with 2. repeat split; lia.
      * pose proof (host_count_below_30 p ltac:(lia)). repeat split; lia.
    + pose proof (host_count_strict p q ltac:(lia) ltac:(lia)). repeat split; lia.
Qed.

Lemma host_count_monotone_witness :
  0 <= 24 /\ 24 < 30 /\ 30 <= 32
  /\ exists hosts_p hosts_q,
       IPAnalyzer.get_num_hosts (analyzer (ipv4 10 0 0 1) 24) = Ok hosts_p
       /\ IPAnalyzer.get_num_hosts (analyzer (ipv4 10 0 0 1) 30) = Ok hosts_q
       /\ hosts_q < hosts_p.
Proof.
  repeat (split; [lia |]).
  destruct (host_count_monotone (ipv4 10 0 0 1) 24 30 ltac:(lia) ltac:(lia) ltac:(lia))
    as (hp & hq & Hhp & Hhq & _ & Hlt & _).
  exists hp, hq. repeat split; try assumption. apply Hlt. lia.
Defined.

(** C10.  For every well-formed analyzer the stored address lies between the
    network address and the broadcast address, all three read as 32-bit
    integers by [to_uint32]. *)
Theorem address_within_network a :
  wf_analyzer a ->
  exists network broadcast,
    IPAnalyzer.get_network a = Ok network
    /\ IPAnalyzer.get_broadcast a = Ok broadcast
    /\ IPv4Address.to_uint32 network <= IPv4Address.to_uint32 (IPAnalyzer.get_ip a)
    /\ IPv4Address.to_uint32 (IPAnalyzer.get_ip a) <= IPv4Address.to_uint32 broadcast.
Proof.
  intros Hwf.
  destruct (get_network_value a Hwf) as (network & Hn & _ & Vn).
  destruct (get_broadcast_value a Hwf) as (broadcast & Hb & _ & Vb).
  pose proof (mod_host_bits_range a Hwf) as [Hm _].
  exists network, broadcast. unfold IPAnalyzer.get_ip.
  repeat split; try assumption; lia.
Qed.

Lemma address_within_network_witness :
  wf_analyzer (analyzer (ipv4 192 168 178 77) 24)
  /\ exists network broadcast,
       IPAnalyzer.get_network (analyzer (ipv4 192 168 178 77) 24) = Ok network
       /\ IPAnalyzer.get_broadcast (analyzer (ipv4 192 168 178 77) 24) = Ok broadcast
       /\ IPv4Address.to_uint32 network <= 3232281165
       /\ 3232281165 <= IPv4Address.to_uint32 broadcast.
Proof.
  assert (Hwf : wf_analyzer (analyzer (ipv4 192 168 178 77) 24))
    by (unfold wf_analyzer, wf_address, octet_ok; cbn; lia).
  split; [exact Hwf |].
  exact (address_within_network _ Hwf).
Defined.

(** * Further properties of [IPv4Address] *)

(** [g] is written without a superfluous leading zero. *)
Definition no_leading_zero (g : string) : Prop :=
  match g with
  | EmptyString => False
  | String c r => r = EmptyString \/ c <> "0"%char
  end.

(** [s] is a dotted quad whose four groups have no superfluous leading zero. *)
Definition canonical_quad (s : string) (a b c d : Z) : Prop :=
  exists g0 g1 g2 g3,
    s = (g0 ++ "." ++ g1 ++ "." ++ g2 ++ "." ++ g3)%string
    /\ (octet_text g0 a /\ no_leading_zero g0)
    /\ (octet_text g1 b /\ no_leading_zero g1)
    /\ (octet_text g2 c /\ no_leading_zero g2)
    /\ (octet_text g3 d /\ no_leading_zero g3).

(** The number a string of ['0'] and ['1'] denotes in base 2. *)
Fixpoint binary_from (acc : Z) (s : string) : Z :=
  match s with
  | EmptyString => acc
  | String c r => binary_from (2 * acc + (if Ascii.eqb c "1" then 1 else 0)) r
  end.

Definition binary (s : string) : Z := binary_from 0 s.

Definition no_leading_zero_b (g : string) : bool :=
  match g with
  | EmptyString => false
  | String c r => String.eqb r EmptyString || negb (Ascii.eqb c "0")
  end.

Section DecimalTexts.

Let len (g : string) : Z := Z.of_nat (String.length g).

Lemma decimal_from_split g acc :
  decimal_from acc g = acc * 10 ^ len g + decimal g.
Proof.
  unfold decimal, len. revert acc.
  induction g as [| c r IH]; intros acc; cbn [decimal_from String.length].
  - cbn. lia.
  - rewrite (IH (10 * acc + Cxx.digit_value c)), (IH (10 * 0 + Cxx.digit_value c)).
    rewrite Nat2Z.inj_succ, Z.pow_succ_r by lia. ring.
Qed.

Lemma decimal_cons c r :
  decimal (String c r) = Cxx.digit_value c * 10 ^ len r + decimal r.
Proof.
  unfold decimal at 1. cbn [decimal_from].
  rewrite decimal_from_split. ring.
Qed.

Lemma decimal_range g :
  all_chars Cxx.isdigit g = true -> 0 <= decimal g < 10 ^ len g.
Proof.
  induction g as [| c r IH]; cbn [all_chars].
  - intros _. cbn. lia.
  - intros H. apply andb_true_iff in H as [Hc Hr].
    specialize (IH Hr). pose proof (isdigit_value c Hc) as Hd.
    rewrite decimal_cons. unfold len in *. cbn [String.length].
    rewrite Nat2Z.inj_succ, Z.pow_succ_r by lia. nia.
Qed.

Lemma digit_value_inj c1 c2 : Cxx.digit_value c1 = Cxx.digit_value c2 -> c1 = c2.
Proof.
  unfold Cxx.digit_value, Cxx.code. intros H.
  assert (HN : N_of_ascii c1 = N_of_ascii c2) by lia.
  rewrite <- (ascii_N_embedding c1), <- (ascii_N_embedding c2). now rewrite HN.
Qed.

(** Two digit strings of one length that denote one number are equal. *)
Lemma decimal_inj_same_length g1 g2 :
  all_chars Cxx.isdigit g1 = true -> all_chars Cxx.isdigit g2 = true ->
  String.length g1 = String.length g2 -> decimal g1 = decimal g2 -> g1 = g2.
Proof.
  revert g2. induction g1 as [| c1 r1 IH]; intros [| c2 r2]; cbn [all_chars String.length];
    try discriminate; [reflexivity |].
  intros H1 H2 [= Hlen] Hval.
  apply andb_true_iff in H1 as [Hc1 Hr1]. apply andb_true_iff in H2 as [Hc2 Hr2].
  rewrite !decimal_cons in Hval.
  pose proof (decimal_range r1 Hr1) as R1. pose proof (decimal_range r2 Hr2) as R2.
  pose proof (isdigit_value c1 Hc1). pose proof (isdigit_value c2 Hc2).
  unfold len in *. rewrite Hlen in R1, Hval.
  set (P := 10 ^ Z.of_nat (String.length r2)) in *.
  assert (Hd : Cxx.digit_value c1 = Cxx.digit_value c2).
  { destruct (Z.lt_trichotomy (Cxx.digit_value c1) (Cxx.digit_value c2)) as [Hlt | [Heq | Hgt]];
      [| exact Heq |].
    - assert (0 <= (Cxx.digit_value c2 - Cxx.digit_value c1 - 1) * P)
        by (apply Z.mul_nonneg_nonneg; lia).
      lia.
    - assert (0 <= (Cxx.digit_value c1 - Cxx.digit_value c2 - 1) * P)
        by (apply Z.mul_nonneg_nonneg; lia).
      lia. }
  assert (Hr : decimal r1 = decimal r2) by (rewrite Hd in Hval; lia).
  rewrite (digit_value_inj _ _ Hd), (IH r2 Hr1 Hr2 Hlen Hr). reflexivity.
Qed.

(** A digit string that does not start with ['0'] denotes a number with as
    many digits. *)
Lemma decimal_lower_bound c r :
  all_chars Cxx.isdigit (String c r) = true -> c <> "0"%char ->
  10 ^ len r <= decimal (String c r).
Proof.
  cbn [all_chars]. intros H Hc. apply andb_true_iff in H as [Hd Hr].
  pose proof (decimal_range r Hr). pose proof (isdigit_value c Hd).
  assert (Hnz : Cxx.digit_value c <> 0).
  { intros Hz. apply Hc. apply digit_value_inj. rewrite Hz. reflexivity. }
  rewrite decimal_cons.
  assert (0 <= (Cxx.digit_value c - 1) * 10 ^ len r)
    by (apply Z.mul_nonneg_nonneg; lia).
  lia.
Qed.

Lemma decimal_length_unique g1 g2 :
  decimal_group g1 -> decimal_group g2 ->
  no_leading_zero g1 -> no_leading_zero g2 ->
  decimal g1 = decimal g2 -> String.length g1 = String.length g2.
Proof.
  assert (Hone : forall c r c' r',
             all_chars Cxx.isdigit (String c r) = true ->
             all_chars Cxx.isdigit (String c' r') = true ->
             c <> "0"%char ->
             decimal (String c r) = decimal (String c' r') ->
             (String.length r <= String.length r')%nat).
  { intros c r c' r' H H' Hc Hval.
    pose proof (decimal_lower_bound c r H Hc) as Hlow.
    pose proof (decimal_range (String c' r') H') as Hup.
    unfold len in *. cbn [String.length] in Hup. rewrite Nat2Z.inj_succ in Hup.
    destruct (Nat.le_gt_cases (String.length r) (String.length r')) as [| Hlt];
      [assumption |].
    assert (10 ^ Z.succ (Z.of_nat (String.length r')) <= 10 ^ Z.of_nat (String.length r))
      by (apply Z.pow_le_mono_r; lia).
    lia. }
  intros [Hne1 Hd1] [Hne2 Hd2] Hz1 Hz2 Hval.
  destruct g1 as [| c1 r1]; [contradiction |]. destruct g2 as [| c2 r2]; [contradiction |].
  cbn [no_leading_zero] in Hz1, Hz2. cbn [String.length]. f_equal.
  destruct Hz1 as [-> | Hc1]; destruct Hz2 as [-> | Hc2]; try reflexivity.
  - pose proof (Hone c2 r2 c1 EmptyString Hd2 Hd1 Hc2 (eq_sym Hval)) as Hle.
    cbn [String.length] in *. lia.
  - pose proof (Hone c1 r1 c2 EmptyString Hd1 Hd2 Hc1 Hval) as Hle.
    cbn [String.length] in *. lia.
  - pose proof (Hone c1 r1 c2 r2 Hd1 Hd2 Hc1 Hval).
    pose proof (Hone c2 r2 c1 r1 Hd2 Hd1 Hc2 (eq_sym Hval)). lia.
Qed.

(** A number has one decimal text without a superfluous leading zero. *)
Lemma decimal_text_unique g1 g2 :
  decimal_group g1 -> decimal_group g2 ->
  no_leading_zero g1 -> no_leading_zero g2 ->
  decimal g1 = decimal g2 -> g1 = g2.
Proof.
  intros G1 G2 Z1 Z2 Hval.
  apply decimal_inj_same_length; try assumption; try apply G1; try apply G2.
  now apply decimal_length_unique.
Qed.

Lemma no_leading_zero_b_sound g : no_leading_zero_b g = true -> no_leading_zero g.
Proof.
  destruct g as [| c r]; cbn; [discriminate |].
  rewrite orb_true_iff, negb_true_iff, String.eqb_eq, Ascii.eqb_neq. tauto.
Qed.

Lemma print_octets_canonical_checked :
  forallb (fun n => no_leading_zero_b (Cxx.print_int (Z.of_nat n))) (seq 0 256) = true.
Proof. vm_compute. reflexivity. Qed.

Lemma print_int_no_leading_zero v : octet_ok v -> no_leading_zero (Cxx.print_int v).
Proof.
  intros Hv. unfold octet_ok in Hv. apply no_leading_zero_b_sound.
  pose proof (proj1 (forallb_forall _ _) print_octets_canonical_checked (Z.to_nat v)) as H.
  cbv beta in H. rewrite Z2Nat.id in H by lia. apply H. apply in_seq. lia.
Qed.

(** Printing the number of a canonical octet text gives the text back. *)
Lemma print_int_decimal g v :
  octet_text g v -> no_leading_zero g -> Cxx.print_int v = g.
Proof.
  intros Hg Hz.
  assert (Hv : octet_ok v).
  { destruct Hg as ((_ & Hdig) & <- & Hle).
    pose proof (decimal_range g Hdig). unfold octet_ok. lia. }
  destruct (print_int_octet v Hv) as (Gp & Vp & _).
  destruct Hg as (Gg & Vg & _).
  apply decimal_text_unique; try assumption; [| congruence].
  now apply print_int_no_leading_zero.
Qed.

End DecimalTexts.

Section BinaryTexts.

Definition is_bit (c : ascii) : bool := Ascii.eqb c "0" || Ascii.eqb c "1".

Lemma bitset_to_string_length n v : String.length (Cxx.bitset_to_string n v) = n.
Proof. induction n as [| n IH]; cbn; [reflexivity | now rewrite IH]. Qed.

Lemma bitset_to_string_bits n v : all_chars is_bit (Cxx.bitset_to_string n v) = true.
Proof.
  induction n as [| n IH]; cbn [Cxx.bitset_to_string all_chars]; [reflexivity |].
  rewrite IH. now destruct (Z.testbit v (Z.of_nat n)).
Qed.

Lemma binary_from_app s1 s2 acc :
  binary_from acc (s1 ++ s2) = binary_from (binary_from acc s1) s2.
Proof.
  revert acc. induction s1 as [| c r IH]; intros acc; cbn; [reflexivity | apply IH].
Qed.

(** The text of a bit set denotes the value of its bits. *)
Lemma binary_from_bitset n v acc :
  binary_from acc (Cxx.bitset_to_string n v) = acc * 2 ^ Z.of_nat n + v mod 2 ^ Z.of_nat n.
Proof.
  revert acc. induction n as [| n IH]; intros acc.
  - cbn. rewrite Z.mod_1_r. lia.
  - cbn [Cxx.bitset_to_string binary_from]. rewrite IH.
    rewrite Nat2Z.inj_succ, Z.pow_succ_r by lia.
    rewrite (Z.mul_comm 2 (2 ^ Z.of_nat n)), Z.rem_mul_r by lia.
    rewrite <- Z.testbit_spec' by lia.
    destruct (Z.testbit v (Z.of_nat n)); cbn [Cxx.bit_char Ascii.eqb Bool.eqb Z.b2z]; ring.
Qed.

End BinaryTexts.

(** X1.  [to_uint32] reads the four octets of an address as one integer,
    the first octet the most significant: its value is
    [octet0 * 2^24 + octet1 * 2^16 + octet2 * 2^8 + octet3], below [2^32],
    although the octets are shifted as signed [int]s. *)
Theorem to_uint32_big_endian a :
  wf_address a ->
  IPv4Address.to_uint32 a
  = IPv4Address.octet0 a * 16777216 + IPv4Address.octet1 a * 65536
    + IPv4Address.octet2 a * 256 + IPv4Address.octet3 a
  /\ 0 <= IPv4Address.to_uint32 a < 4294967296.
Proof.
  intros Hwf. split.
  - now apply to_uint32_be_value.
  - now apply to_uint32_range_wf.
Qed.

Lemma to_uint32_big_endian_witness :
  wf_address (ipv4 192 168 0 1)
  /\ IPv4Address.to_uint32 (ipv4 192 168 0 1) = 3232235521.
Proof.
  assert (Hwf : wf_address (ipv4 192 168 0 1))
    by (unfold wf_address, octet_ok; cbn; lia).
  split; [exact Hwf |].
  exact (proj1 (to_uint32_big_endian _ Hwf)).
Defined.

(** X2.  An address built from a 32-bit integer by [IPv4Address(uint32_t)]
    has four octets of [0,255], and [to_uint32] gives the integer back. *)
Theorem uint32_round_trip x :
  0 <= x < 2 ^ 32 ->
  wf_address (IPv4Address.of_uint32 x)
  /\ IPv4Address.to_uint32 (IPv4Address.of_uint32 x) = x.
Proof.
  intros Hx. split; [apply of_uint32_wf | now apply to_uint32_of_uint32].
Qed.

Lemma uint32_round_trip_witness :
  0 <= 3232235521 < 2 ^ 32
  /\ IPv4Address.to_uint32 (IPv4Address.of_uint32 3232235521) = 3232235521.
Proof.
  assert (H : 0 <= 3232235521 < 2 ^ 32) by (cbn; lia).
  split; [exact H | exact (proj2 (uint32_round_trip _ H))].
Defined.

(** X3.  [IPv4Address(uint32_t)] undoes [to_uint32]: rebuilding an address
    from its integer gives the same four octets, so two addresses with the
    same integer are the same address. *)
Theorem address_round_trip a b :
  wf_address a -> wf_address b ->
  IPv4Address.of_uint32 (IPv4Address.to_uint32 a) = a
  /\ (IPv4Address.to_uint32 a = IPv4Address.to_uint32 b -> a = b).
Proof.
  intros Ha Hb. split; [now apply of_uint32_to_uint32 |].
  intros Heq.
  rewrite <- (of_uint32_to_uint32 a Ha), <- (of_uint32_to_uint32 b Hb).
  now rewrite Heq.
Qed.

Lemma address_round_trip_witness :
  wf_address (ipv4 10 0 0 1) /\ wf_address (ipv4 10 0 0 1)
  /\ IPv4Address.of_uint32 (IPv4Address.to_uint32 (ipv4 10 0 0 1)) = ipv4 10 0 0 1.
Proof.
  assert (Hwf : wf_address (ipv4 10 0 0 1))
    by (unfold wf_address, octet_ok; cbn; lia).
  split; [exact Hwf |]. split; [exact Hwf |].
  exact (proj1 (address_round_trip _ _ Hwf Hwf)).
Defined.

(** X4.  What [to_string] prints, the constructor reads back as the same
    address. *)
Theorem to_string_then_parse a :
  wf_address a ->
  IPv4Address.of_string_view (Cxx.view_of (IPv4Address.to_string a)) = Ok a.
Proof. apply of_string_view_to_string. Qed.

Lemma to_string_then_parse_witness :
  wf_address (ipv4 172 16 254 3)
  /\ IPv4Address.of_string_view (Cxx.view_of (IPv4Address.to_string (ipv4 172 16 254 3)))
     = Ok (ipv4 172 16 254 3).
Proof.
  assert (Hwf : wf_address (ipv4 172 16 254 3))
    by (unfold wf_address, octet_ok; cbn; lia).
  split; [exact Hwf | exact (to_string_then_parse _ Hwf)].
Defined.

(** X5.  A dotted quad whose groups have no superfluous leading zero is
    parsed to an address that [to_string] prints as the very same text. *)
Theorem parse_then_to_string s a b c d :
  canonical_quad s a b c d ->
  IPv4Address.of_string_view (Cxx.view_of s) = Ok (ipv4 a b c d)
  /\ IPv4Address.to_string (ipv4 a b c d) = s.
Proof.
  intros (g0 & g1 & g2 & g3 & Hs & [T0 Z0] & [T1 Z1] & [T2 Z2] & [T3 Z3]).
  split.
  - unfold Cxx.view_of. rewrite <- (append_nil_r s) at 1.
    apply of_string_view_dotted_quad; try reflexivity.
    exists g0, g1, g2, g3. tauto.
  - unfold IPv4Address.to_string. cbn [IPv4Address.octet0 IPv4Address.octet1
      IPv4Address.octet2 IPv4Address.octet3 ipv4].
    rewrite (print_int_decimal g0 a T0 Z0), (print_int_decimal g1 b T1 Z1),
      (print_int_decimal g2 c T2 Z2), (print_int_decimal g3 d T3 Z3).
    now rewrite Hs.
Qed.

Lemma parse_then_to_string_witness :
  canonical_quad "192.168.0.1" 192 168 0 1
  /\ IPv4Address.to_string (ipv4 192 168 0 1) = "192.168.0.1"%string.
Proof.
  assert (Hq : canonical_quad "192.168.0.1" 192 168 0 1).
  { exists "192"%string, "168"%string, "0"%string, "1"%string.
    unfold octet_text, decimal_group, no_leading_zero.
    repeat split; try discriminate; try lia; (now left) || (right; discriminate). }
  split; [exact Hq | exact (proj2 (parse_then_to_string _ _ _ _ _ Hq))].
Defined.

(** X6.  [to_binary_string] prints 32 characters, each ['0'] or ['1'], and
    read as a number in base 2 they are the integer of [to_uint32]: the
    octets appear in order, each with its highest bit first. *)
Theorem to_binary_string_value a :
  wf_address a ->
  String.length (IPv4Address.to_binary_string a) = 32%nat
  /\ all_chars is_bit (IPv4Address.to_binary_string a) = true
  /\ binary (IPv4Address.to_binary_string a) = IPv4Address.to_uint32 a.
Proof.
  intros Hwf. unfold IPv4Address.to_binary_string. split; [| split].
  - rewrite !length_append, !bitset_to_string_length. reflexivity.
  - rewrite !all_chars_app, !bitset_to_string_bits. reflexivity.
  - rewrite to_uint32_be_value by assumption.
    destruct Hwf as (H0 & H1 & H2 & H3). unfold octet_ok in *.
    unfold binary, be_value. rewrite !binary_from_app, !binary_from_bitset.
    change (2 ^ Z.of_nat 8) with 256.
    rewrite !Z.mod_small by lia.
    change (2 ^ 24) with 16777216. change (2 ^ 16) with 65536. change (2 ^ 8) with 256.
    ring.
Qed.

Lemma to_binary_string_value_witness :
  wf_address (ipv4 192 168 0 1)
  /\ binary (IPv4Address.to_binary_string (ipv4 192 168 0 1)) = 3232235521.
Proof.
  assert (Hwf : wf_address (ipv4 192 168 0 1))
    by (unfold wf_address, octet_ok; cbn; lia).
  split; [exact Hwf |].
  exact (proj2 (proj2 (to_binary_string_value _ Hwf))).
Defined.

(** * Further properties of the constructors *)

(** [g] is a token the address constructor accepts as an octet. *)
Definition valid_token (g : string) : Prop :=
  exists v, Cxx.stoi g = Ok v /\ 0 <= v <= 255.

Section ConstructorErrors.

Lemma find_char_lt c s i : Cxx.find_char c s = Some i -> (i < String.length s)%nat.
Proof.
  revert i. induction s as [| d r IH]; intros i; cbn [Cxx.find_char String.length];
    [discriminate |].
  destruct (Ascii.eqb d c); [intros [= <-]; lia |].
  destruct (Cxx.find_char c r) as [j |]; [| discriminate].
  intros [= <-]. specialize (IH j eq_refl). lia.
Qed.

Lemma take_length_le n s : (String.length (Cxx.take n s) <= n)%nat.
Proof.
  revert s. induction n as [| n IH]; intros [| c r]; cbn; try lia.
  specialize (IH r). lia.
Qed.

Lemma sv_find_lt v c i : Cxx.sv_find v c = Some i -> (i < Cxx.sv_size v)%nat.
Proof.
  unfold Cxx.sv_find. intros H. apply find_char_lt in H.
  pose proof (take_length_le (Cxx.sv_size v) (Cxx.sv_data v)). lia.
Qed.

(** [substr] after the position [find] returned cannot throw. *)
Lemma sv_substr_after_find v c i :
  Cxx.sv_find v c = Some i -> exists tail, Cxx.sv_substr v (i + 1) None = Ok tail.
Proof.
  intros H. apply sv_find_lt in H. unfold Cxx.sv_substr.
  replace (Cxx.sv_size v <? i + 1)%nat with false by (symmetry; apply Nat.ltb_ge; lia).
  eauto.
Qed.

Lemma parse_loop_valid tokens i octets :
  Forall valid_token tokens -> (i + List.length tokens <= 4)%nat ->
  exists octets', IPv4Address.parse_loop tokens i octets
                  = Ok ((i + List.length tokens)%nat, octets').
Proof.
  intros Hvalid. revert i octets.
  induction Hvalid as [| token tokens (v & Hv & Hr) _ IH]; intros i octets Hlen.
  - exists octets. cbn. now rewrite Nat.add_0_r.
  - cbn [List.length] in *.
    rewrite (parse_loop_step token tokens i octets v) by (assumption || lia).
    destruct (IH (S i) (IPv4Address.set octets i v) ltac:(lia)) as (octets' & ->).
    exists octets'. do 2 f_equal. lia.
Qed.

Lemma parse_loop_app good rest i octets :
  Forall valid_token good -> (i + List.length good <= 4)%nat ->
  exists octets', IPv4Address.parse_loop (good ++ rest) i octets
                  = IPv4Address.parse_loop rest (i + List.length good) octets'.
Proof.
  intros Hvalid. revert i octets.
  induction Hvalid as [| token tokens (v & Hv & Hr) _ IH]; intros i octets Hlen.
  - exists octets. cbn. now rewrite Nat.add_0_r.
  - cbn [List.length List.app] in *.
    rewrite (parse_loop_step token _ i octets v) by (assumption || lia).
    destruct (IH (S i) (IPv4Address.set octets i v) ltac:(lia)) as (octets' & ->).
    exists octets'. f_equal. lia.
Qed.

Lemma ctor_throws ip_cidr e :
  IPAnalyzer.ctor ip_cidr = Throw e ->
  (exists what, e = invalid_argument what) \/ e = out_of_range "stoi".
Proof.
  rewrite ctor_unfold.
  destruct (IPv4Address.of_string_view ip_cidr) as [ip | e'] eqn:Hip; cbn [bind].
  - destruct (Cxx.sv_find ip_cidr "/") as [slash_pos |] eqn:Hfind;
      [| intros [= <-]; left; eauto].
    destruct (sv_substr_after_find _ _ _ Hfind) as (tail & ->). cbn [bind].
    destruct (Cxx.stoi (Cxx.sv_to_string tail)) as [n | e'] eqn:Hstoi; cbn [bind].
    + destruct (32 <? Cxx.to_uint8 n); [intros [= <-]; left; eauto | discriminate].
    + intros [= <-]. destruct (stoi_throws _ _ Hstoi) as [-> | ->]; eauto.
  - intros [= <-]. eapply of_string_view_throws; eassumption.
Qed.

End ConstructorErrors.

(** X7.  Which exception the address constructor throws is decided by the
    first token that is wrong, the tokens being what [getline] cuts out of
    the text.  With fewer than four tokens, all acceptable, it is "not
    enough octets"; with a fifth token after four acceptable ones it is "too
    many octets", whatever that token holds; a token among the first four
    that [stoi] cannot read passes on the exception of [stoi], and one that
    [stoi] reads as a number outside [0,255] gives "Invalid IP address octet
    value". *)
Theorem parse_error_by_token address good :
  Forall valid_token good ->
  let tokens := Cxx.getlines "." (Cxx.c_str (Cxx.sv_data address)) in
  (tokens = good -> (List.length good < 4)%nat ->
     IPv4Address.of_string_view address
     = Throw (invalid_argument "Invalid IP address format: not enough octets"))
  /\ (forall extra rest, tokens = (good ++ extra :: rest)%list -> List.length good = 4%nat ->
        IPv4Address.of_string_view address
        = Throw (invalid_argument "Invalid IP address format: too many octets"))
  /\ (forall bad rest e, tokens = (good ++ bad :: rest)%list -> (List.length good < 4)%nat ->
        Cxx.stoi bad = Throw e ->
        IPv4Address.of_string_view address = Throw e)
  /\ (forall bad rest v, tokens = (good ++ bad :: rest)%list -> (List.length good < 4)%nat ->
        Cxx.stoi bad = Ok v -> ~ 0 <= v <= 255 ->
        IPv4Address.of_string_view address
        = Throw (invalid_argument "Invalid IP address octet value")).
Proof.
  intros Hgood tokens. subst tokens. unfold IPv4Address.of_string_view.
  split; [| split; [| split]].
  - intros -> Hlen.
    destruct (parse_loop_valid good 0 IPv4Address.unwritten Hgood ltac:(lia))
      as (octets & ->).
    cbn [bind Nat.add]. destruct (Nat.eqb_spec (List.length good) 4); [lia | reflexivity].
  - intros extra rest -> Hlen.
    destruct (parse_loop_app good (extra :: rest) 0 IPv4Address.unwritten Hgood ltac:(lia))
      as (octets & ->).
    rewrite Hlen. reflexivity.
  - intros bad rest e -> Hlen Hbad.
    destruct (parse_loop_app good (bad :: rest) 0 IPv4Address.unwritten Hgood ltac:(lia))
      as (octets & ->).
    cbn [IPv4Address.parse_loop Nat.add].
    replace (4 <=? List.length good)%nat with false by (symmetry; apply Nat.leb_gt; lia).
    rewrite Hbad. reflexivity.
  - intros bad rest v -> Hlen Hbad Hrange.
    destruct (parse_loop_app good (bad :: rest) 0 IPv4Address.unwritten Hgood ltac:(lia))
      as (octets & ->).
    cbn [IPv4Address.parse_loop Nat.add].
    replace (4 <=? List.length good)%nat with false by (symmetry; apply Nat.leb_gt; lia).
    rewrite Hbad. cbn [bind]. now rewrite octet_out_of_range.
Qed.

Lemma parse_error_by_token_witness :
  Forall valid_token ["192"; "168"]%string
  /\ IPv4Address.of_string_view (Cxx.view_of "192.168.300.1")
     = Throw (invalid_argument "Invalid IP address octet value").
Proof.
  assert (Hgood : Forall valid_token ["192"; "168"]%string).
  { repeat constructor.
    - exists 192. split; [reflexivity | lia].
    - exists 168. split; [reflexivity | lia]. }
  split; [exact Hgood |].
  refine (proj2 (proj2 (proj2 (parse_error_by_token (Cxx.view_of "192.168.300.1") _ Hgood)))
            "300"%string ["1"%string] 300 eq_refl _ eq_refl _).
  - cbn. lia.
  - lia.
Defined.

(** X8.  Whatever the analyzer constructor builds, from any view, has four
    octets of [0,255] and a prefix length of [0,32]. *)
Theorem ctor_establishes_invariant ip_cidr a :
  IPAnalyzer.ctor ip_cidr = Ok a ->
  wf_address (IPAnalyzer.get_ip a) /\ 0 <= IPAnalyzer.get_cidr a <= 32.
Proof. intros H. exact (ctor_wf ip_cidr a H). Qed.

Lemma ctor_establishes_invariant_witness :
  IPAnalyzer.ctor (Cxx.view_of "10.20.30.40/27") = Ok (analyzer (ipv4 10 20 30 40) 27)
  /\ 0 <= 27 <= 32.
Proof.
  split; [reflexivity |].
  exact (proj2 (ctor_establishes_invariant (Cxx.view_of "10.20.30.40/27") _ eq_refl)).
Defined.

(** X9.  The analyzer constructor throws [invalid_argument] or the
    [out_of_range] of [stoi] and nothing else: the [substr] after the
    position of the ['/'] cannot throw.  The address is parsed first, so an
    exception of the address constructor is the one that comes out, also
    when the ['/'] is missing. *)
Theorem ctor_exceptions ip_cidr :
  (forall e, IPAnalyzer.ctor ip_cidr = Throw e ->
     (exists what, e = invalid_argument what) \/ e = out_of_range "stoi")
  /\ (forall e, IPv4Address.of_string_view ip_cidr = Throw e ->
        IPAnalyzer.ctor ip_cidr = Throw e).
Proof.
  split.
  - intros e. apply ctor_throws.
  - rewrite ctor_unfold. intros e ->. reflexivity.
Qed.

Lemma ctor_exceptions_witness :
  IPv4Address.of_string_view (Cxx.view_of "10.0.0") 
  = Throw (invalid_argument "Invalid IP address format: not enough octets")
  /\ IPAnalyzer.ctor (Cxx.view_of "10.0.0")
     = Throw (invalid_argument "Invalid IP address format: not enough octets").
Proof.
  split; [reflexivity |].
  exact (proj2 (ctor_exceptions (Cxx.view_of "10.0.0")) _ eq_refl).
Defined.

(** X10.  For a dotted quad followed by ['/'] and a decimal number of at
    most 255, the constructor succeeds exactly when the number is at most
    32, and then the analyzer holds the four numbers and that prefix length;
    otherwise it throws "Invalid CIDR value". *)
Theorem ctor_decimal_prefix q a b c d suffix :
  dotted_quad q a b c d -> decimal_group suffix -> decimal suffix <= 255 ->
  (decimal suffix <= 32 ->
     IPAnalyzer.of_string (q ++ "/" ++ suffix)
     = Ok (analyzer (ipv4 a b c d) (decimal suffix)))
  /\ (32 < decimal suffix ->
        IPAnalyzer.of_string (q ++ "/" ++ suffix)
        = Throw (invalid_argument "Invalid CIDR value")).
Proof.
  intros Hq Hsuffix Hmax.
  pose proof (decimal_from_nonneg suffix 0 (proj2 Hsuffix) ltac:(lia)) as Hpos.
  fold (decimal suffix) in Hpos.
  rewrite (ctor_dotted_quad_prefix q a b c d suffix Hq Hsuffix)
    by (unfold Cxx.INT_MAX; lia).
  rewrite Z.mod_small by lia.
  split; intros H.
  - destruct (Z.ltb_spec 32 (decimal suffix)); [lia | reflexivity].
  - destruct (Z.ltb_spec 32 (decimal suffix)); [reflexivity | lia].
Qed.

Lemma ctor_decimal_prefix_witness :
  dotted_quad "10.0.0.1" 10 0 0 1 /\ decimal_group "08" /\ decimal "08" <= 255
  /\ IPAnalyzer.of_string "10.0.0.1/08" = Ok (analyzer (ipv4 10 0 0 1) 8).
Proof.
  assert (Hq : dotted_quad "10.0.0.1" 10 0 0 1).
  { exists "10"%string, "0"%string, "0"%string, "1"%string.
    unfold octet_text, decimal_group. repeat split; discriminate || lia. }
  assert (Hs : decimal_group "08") by (split; [discriminate | reflexivity]).
  assert (Hm : decimal "08" <= 255) by (cbn; lia).
  split; [exact Hq |]. split; [exact Hs |]. split; [exact Hm |].
  refine (proj1 (ctor_decimal_prefix "10.0.0.1" 10 0 0 1 "08" Hq Hs Hm) _).
  cbn. lia.
Defined.

(** * Further properties of network, netmask and broadcast *)

Section Blocks.

Lemma to_uint32_inj a b :
  wf_address a -> wf_address b ->
  IPv4Address.to_uint32 a = IPv4Address.to_uint32 b -> a = b.
Proof.
  intros Ha Hb Heq.
  rewrite <- (of_uint32_to_uint32 a Ha), <- (of_uint32_to_uint32 b Hb).
  now rewrite Heq.
Qed.

Variable m : Z.
Hypothesis m_pos : 0 < m.

Lemma floor_multiple x : x - x mod m = m * (x / m).
Proof. pose proof (Z.div_mod x m ltac:(lia)). lia. Qed.

Lemma floor_aligned x : (x - x mod m) mod m = 0.
Proof. rewrite floor_multiple, Z.mul_comm. apply Z.mod_mul. lia. Qed.

Lemma floor_idempotent x : (x - x mod m) - (x - x mod m) mod m = x - x mod m.
Proof. rewrite floor_aligned. lia. Qed.

(** [y] lies in the block of [x] exactly when both have the same quotient. *)
Lemma same_block_iff x y :
  x - x mod m <= y <= x - x mod m + (m - 1) <-> y - y mod m = x - x mod m.
Proof.
  rewrite !floor_multiple. split.
  - intros Hy. f_equal. symmetry.
    apply Z.div_unique_pos with (r := y - m * (x / m)); lia.
  - intros Heq. pose proof (Z.div_mod y m ltac:(lia)).
    pose proof (Z.mod_pos_bound y m m_pos). lia.
Qed.

(** The blocks of a multiple [m * c] are unions of blocks of [m]. *)
Lemma floor_nested c x :
  0 < c ->
  x - x mod (m * c) <= x - x mod m
  /\ x - x mod m + (m - 1) <= x - x mod (m * c) + (m * c - 1).
Proof.
  intros Hc. rewrite (Z.rem_mul_r x m c) by lia.
  pose proof (Z.mod_pos_bound (x / m) c Hc) as Hq.
  assert (0 <= m * ((x / m) mod c)) by (apply Z.mul_nonneg_nonneg; lia).
  assert (0 <= m * (c - 1 - (x / m) mod c)) by (apply Z.mul_nonneg_nonneg; lia).
  lia.
Qed.

End Blocks.

Section BlockProperties.

Variable a : IPAnalyzer.t.
Hypothesis a_wf : wf_analyzer a.

Let p := IPAnalyzer.cidr_ a.
Let x := IPv4Address.to_uint32 (IPAnalyzer.ip_ a).
Let m := 2 ^ (32 - p).

Lemma block_size_pos : 0 < m <= 2 ^ 32.
Proof. apply pow2_le_32. destruct a_wf as [_ Hp]. subst p. lia. Qed.

(** Network, netmask and broadcast of a well-formed analyzer, with their
    values. *)
Lemma block_values :
  exists network netmask broadcast,
    IPAnalyzer.get_network a = Ok network /\ wf_address network
    /\ IPAnalyzer.get_netmask a = Ok netmask /\ wf_address netmask
    /\ IPAnalyzer.get_broadcast a = Ok broadcast /\ wf_address broadcast
    /\ IPv4Address.to_uint32 network = x - x mod m
    /\ IPv4Address.to_uint32 netmask = 2 ^ 32 - m
    /\ IPv4Address.to_uint32 broadcast = x - x mod m + (m - 1).
Proof.
  destruct (get_network_value a a_wf) as (network & Hn & Wn & Vn).
  destruct (get_broadcast_value a a_wf) as (broadcast & Hb & Wb & Vb).
  exists network, (IPv4Address.of_uint32 (netmask_value p)), broadcast.
  pose proof a_wf as [_ Hp].
  repeat (split; [first [assumption | apply of_uint32_wf
                        | now apply get_netmask_closed] |]).
  split; [| exact Vb].
  apply to_uint32_of_uint32. now apply netmask_value_range.
Qed.

(** An analyzer of the same prefix length on another address. *)
Lemma rebased_wf y : wf_address y -> wf_analyzer (analyzer y p).
Proof. intros Hy. split; [exact Hy | apply a_wf]. Qed.

End BlockProperties.

Section BlockMembers.

Variable a : IPAnalyzer.t.
Hypothesis a_wf : wf_analyzer a.

(** An address between network and broadcast has the same network and the
    same broadcast address, and conversely. *)
Lemma member_block y network broadcast :
  wf_address y ->
  IPAnalyzer.get_network a = Ok network ->
  IPAnalyzer.get_broadcast a = Ok broadcast ->
  (IPv4Address.to_uint32 network <= IPv4Address.to_uint32 y
   <= IPv4Address.to_uint32 broadcast)
  <-> (IPAnalyzer.get_network (analyzer y (IPAnalyzer.cidr_ a)) = Ok network
       /\ IPAnalyzer.get_broadcast (analyzer y (IPAnalyzer.cidr_ a)) = Ok broadcast).
Proof.
  intros Hy Hn Hb.
  destruct (block_values a a_wf)
    as (n & _ & b & Hn' & Wn & _ & _ & Hb' & Wb & Vn & _ & Vb).
  rewrite Hn in Hn'. rewrite Hb in Hb'. injection Hn' as <-. injection Hb' as <-.
  destruct (block_values _ (rebased_wf a a_wf y Hy))
    as (ny & _ & by' & Hny & Wny & _ & _ & Hby & Wby & Vny & _ & Vby).
  cbn [analyzer IPAnalyzer.ip_ IPAnalyzer.cidr_] in Vny, Vby.
  pose proof (block_size_pos a a_wf) as [Hm _].
  rewrite Hny, Hby, Vn, Vb. rewrite (same_block_iff _ Hm). split.
  - intros Heq. split; f_equal; apply to_uint32_inj; try assumption; lia.
  - intros [[= ->] _]. lia.
Qed.

End BlockMembers.

(** X11.  For every well-formed analyzer the network address is the stored
    address and-ed with the netmask, and the broadcast address is the stored
    address, or just as well the network address, or-ed with the complement
    of the netmask, all as 32-bit integers; this also holds for the prefix
    lengths 0 and 32, for which the code takes other paths. *)
Theorem network_broadcast_by_netmask a :
  wf_analyzer a ->
  let x := IPv4Address.to_uint32 (IPAnalyzer.get_ip a) in
  exists network netmask broadcast,
    IPAnalyzer.get_network a = Ok network
    /\ IPAnalyzer.get_netmask a = Ok netmask
    /\ IPAnalyzer.get_broadcast a = Ok broadcast
    /\ IPv4Address.to_uint32 network = Z.land x (IPv4Address.to_uint32 netmask)
    /\ IPv4Address.to_uint32 broadcast
       = Z.lor x (Cxx.not_u32 (IPv4Address.to_uint32 netmask))
    /\ IPv4Address.to_uint32 broadcast
       = Z.lor (IPv4Address.to_uint32 network)
               (Cxx.not_u32 (IPv4Address.to_uint32 netmask)).
Proof.
  intros Hwf x.
  destruct (block_values a Hwf)
    as (n & mask & b & Hn & Wn & Hm & _ & Hb & _ & Vn & Vm & Vb).
  exists n, mask, b. repeat (split; [assumption |]).
  pose proof (stored_value_range a Hwf) as Hx.
  pose proof (host_bits_range a Hwf) as Hk.
  pose proof (block_size_pos a Hwf) as Hpow.
  pose proof (mod_host_bits_range a Hwf) as Hmod.
  unfold IPAnalyzer.get_ip in x. subst x.
  rewrite Vm, not_u32_value by lia.
  replace (2 ^ 32 - 1 - (2 ^ 32 - 2 ^ (32 - IPAnalyzer.cidr_ a)))
    with (2 ^ (32 - IPAnalyzer.cidr_ a) - 1) by lia.
  rewrite land_high_mask, !lor_low_mask by (assumption || lia).
  rewrite Vn, Vb, floor_aligned by lia.
  repeat split; lia.
Qed.

Lemma network_broadcast_by_netmask_witness :
  wf_analyzer (analyzer (ipv4 172 16 5 9) 20)
  /\ exists network netmask broadcast,
       IPAnalyzer.get_network (analyzer (ipv4 172 16 5 9) 20) = Ok network
       /\ IPAnalyzer.get_netmask (analyzer (ipv4 172 16 5 9) 20) = Ok netmask
       /\ IPAnalyzer.get_broadcast (analyzer (ipv4 172 16 5 9) 20) = Ok broadcast
       /\ IPv4Address.to_uint32 network
          = Z.land 2886731017 (IPv4Address.to_uint32 netmask).
Proof.
  assert (Hwf : wf_analyzer (analyzer (ipv4 172 16 5 9) 20))
    by (unfold wf_analyzer, wf_address, octet_ok; cbn; lia).
  split; [exact Hwf |].
  destruct (network_broadcast_by_netmask _ Hwf)
    as (n & mask & b & Hn & Hm & Hb & Hland & _).
  exists n, mask, b. repeat (split; [assumption |]). exact Hland.
Defined.

(** X12.  Network and broadcast address are fixed points: taking the network
    (broadcast) address of the network or of the broadcast address, with the
    same prefix length, gives the network (broadcast) address again.  The
    network address is a multiple of the block size [2^(32-p)] and the
    broadcast address is the last address of that block. *)
Theorem network_broadcast_idempotent a :
  wf_analyzer a ->
  let p := IPAnalyzer.get_cidr a in
  exists network broadcast,
    IPAnalyzer.get_network a = Ok network
    /\ IPAnalyzer.get_broadcast a = Ok broadcast
    /\ IPAnalyzer.get_network (analyzer network p) = Ok network
    /\ IPAnalyzer.get_broadcast (analyzer network p) = Ok broadcast
    /\ IPAnalyzer.get_network (analyzer broadcast p) = Ok network
    /\ IPAnalyzer.get_broadcast (analyzer broadcast p) = Ok broadcast
    /\ IPv4Address.to_uint32 network mod 2 ^ (32 - p) = 0
    /\ IPv4Address.to_uint32 broadcast
       = IPv4Address.to_uint32 network + 2 ^ (32 - p) - 1.
Proof.
  intros Hwf p. subst p. unfold IPAnalyzer.get_cidr.
  destruct (block_values a Hwf)
    as (n & _ & b & Hn & Wn & _ & _ & Hb & Wb & Vn & _ & Vb).
  pose proof (block_size_pos a Hwf) as [Hm _].
  exists n, b. split; [assumption |]. split; [assumption |].
  assert (Hin : IPv4Address.to_uint32 n <= IPv4Address.to_uint32 n
                <= IPv4Address.to_uint32 b) by lia.
  assert (Hib : IPv4Address.to_uint32 n <= IPv4Address.to_uint32 b
                <= IPv4Address.to_uint32 b) by lia.
  apply (member_block a Hwf n n b Wn Hn Hb) in Hin as [Hnn Hnb].
  apply (member_block a Hwf b n b Wb Hn Hb) in Hib as [Hbn Hbb].
  repeat (split; [assumption |]).
  split; [| lia]. rewrite Vn. apply floor_aligned. lia.
Qed.

Lemma network_broadcast_idempotent_witness :
  wf_analyzer (analyzer (ipv4 192 168 178 77) 26)
  /\ exists network broadcast,
       IPAnalyzer.get_network (analyzer (ipv4 192 168 178 77) 26) = Ok network
       /\ IPAnalyzer.get_broadcast (analyzer (ipv4 192 168 178 77) 26) = Ok broadcast
       /\ IPAnalyzer.get_network (analyzer network 26) = Ok network.
Proof.
  assert (Hwf : wf_analyzer (analyzer (ipv4 192 168 178 77) 26))
    by (unfold wf_analyzer, wf_address, octet_ok; cbn; lia).
  split; [exact Hwf |].
  destruct (network_broadcast_idempotent _ Hwf) as (n & b & Hn & Hb & Hnn & _).
  exists n, b. repeat (split; [assumption |]). exact Hnn.
Defined.

(** X13.  With one prefix length, an address lies between the network and
    the broadcast address of an analyzer exactly when its own network
    address is that network address. *)
Theorem same_network_iff_in_range a y :
  wf_analyzer a -> wf_address y ->
  exists network broadcast,
    IPAnalyzer.get_network a = Ok network
    /\ IPAnalyzer.get_broadcast a = Ok broadcast
    /\ ((IPv4Address.to_uint32 network <= IPv4Address.to_uint32 y
         <= IPv4Address.to_uint32 broadcast)
        <-> IPAnalyzer.get_network (analyzer y (IPAnalyzer.get_cidr a)) = Ok network).
Proof.
  intros Hwf Hy. unfold IPAnalyzer.get_cidr.
  destruct (block_values a Hwf)
    as (n & _ & b & Hn & Wn & _ & _ & Hb & Wb & _).
  exists n, b. split; [assumption |]. split; [assumption |].
  rewrite (member_block a Hwf y n b Hy Hn Hb). split; [tauto |].
  intros Hyn. split; [assumption |].
  destruct (block_values _ (rebased_wf a Hwf y Hy))
    as (ny & _ & by' & Hny & Wny & _ & _ & Hby & Wby & Vny & _ & Vby).
  rewrite Hyn in Hny. injection Hny as <-.
  destruct (block_values a Hwf)
    as (n' & _ & b' & Hn' & _ & _ & _ & Hb' & _ & Vn & _ & Vb).
  rewrite Hn in Hn'. rewrite Hb in Hb'. injection Hn' as <-. injection Hb' as <-.
  rewrite Hby. f_equal. apply to_uint32_inj; try assumption.
  cbn [analyzer IPAnalyzer.ip_ IPAnalyzer.cidr_] in Vny, Vby. lia.
Qed.

Lemma same_network_iff_in_range_witness :
  wf_analyzer (analyzer (ipv4 10 1 2 3) 16) /\ wf_address (ipv4 10 1 200 9)
  /\ IPAnalyzer.get_network (analyzer (ipv4 10 1 200 9) 16) = Ok (ipv4 10 1 0 0).
Proof.
  assert (Hwf : wf_analyzer (analyzer (ipv4 10 1 2 3) 16))
    by (unfold wf_analyzer, wf_address, octet_ok; cbn; lia).
  assert (Hy : wf_address (ipv4 10 1 200 9))
    by (unfold wf_address, octet_ok; cbn; lia).
  split; [exact Hwf |]. split; [exact Hy |].
  destruct (same_network_iff_in_range _ _ Hwf Hy) as (n & b & Hn & Hb & Hiff).
  injection Hn as <-. injection Hb as <-.
  apply Hiff. cbn. lia.
Defined.

(** X14.  A longer prefix gives a block inside the block of a shorter one:
    for prefix lengths [p <= q] on one address, the network address for [p]
    is at most the one for [q], the broadcast address for [q] is at most the
    one for [p], and the address lies between the two of [q]. *)
Theorem longer_prefix_nests ip p q :
  wf_address ip -> 0 <= p -> p <= q -> q <= 32 ->
  exists network_p broadcast_p network_q broadcast_q,
    IPAnalyzer.get_network (analyzer ip p) = Ok network_p
    /\ IPAnalyzer.get_broadcast (analyzer ip p) = Ok broadcast_p
    /\ IPAnalyzer.get_network (analyzer ip q) = Ok network_q
    /\ IPAnalyzer.get_broadcast (analyzer ip q) = Ok broadcast_q
    /\ IPv4Address.to_uint32 network_p <= IPv4Address.to_uint32 network_q
    /\ IPv4Address.to_uint32 network_q <= IPv4Address.to_uint32 ip
    /\ IPv4Address.to_uint32 ip <= IPv4Address.to_uint32 broadcast_q
    /\ IPv4Address.to_uint32 broadcast_q <= IPv4Address.to_uint32 broadcast_p.
Proof.
  intros Hip Hp Hpq Hq.
  assert (Wp : wf_analyzer (analyzer ip p)) by (split; [exact Hip | cbn; lia]).
  assert (Wq : wf_analyzer (analyzer ip q)) by (split; [exact Hip | cbn; lia]).
  destruct (block_values _ Wp) as (np & _ & bp & Hnp & _ & _ & _ & Hbp & _ & Vnp & _ & Vbp).
  destruct (block_values _ Wq) as (nq & _ & bq & Hnq & _ & _ & _ & Hbq & _ & Vnq & _ & Vbq).
  cbn [analyzer IPAnalyzer.ip_ IPAnalyzer.cidr_] in *.
  exists np, bp, nq, bq. repeat (split; [assumption |]).
  pose proof (mod_host_bits_range _ Wq) as [Hmod Hle].
  cbn [analyzer IPAnalyzer.ip_ IPAnalyzer.cidr_] in Hmod, Hle.
  assert (Hsplit : 2 ^ (32 - p) = 2 ^ (32 - q) * 2 ^ (q - p)).
  { rewrite <- Z.pow_add_r by lia. f_equal. lia. }
  assert (Hm : 0 < 2 ^ (32 - q)) by (apply Z.pow_pos_nonneg; lia).
  assert (Hc : 0 < 2 ^ (q - p)) by (apply Z.pow_pos_nonneg; lia).
  pose proof (floor_nested (2 ^ (32 - q)) Hm (2 ^ (q - p)) (IPv4Address.to_uint32 ip) Hc)
    as [Hlow Hhigh].
  rewrite <- Hsplit in Hlow, Hhigh.
  rewrite Vnp, Vnq, Vbp, Vbq. repeat split; lia.
Qed.

Lemma longer_prefix_nests_witness :
  wf_address (ipv4 10 11 12 13) /\ 0 <= 8 /\ 8 <= 24 /\ 24 <= 32
  /\ exists network_p network_q,
       IPAnalyzer.get_network (analyzer (ipv4 10 11 12 13) 8) = Ok network_p
       /\ IPAnalyzer.get_network (analyzer (ipv4 10 11 12 13) 24) = Ok network_q
       /\ IPv4Address.to_uint32 network_p <= IPv4Address.to_uint32 network_q.
Proof.
  assert (Hip : wf_address (ipv4 10 11 12 13))
    by (unfold wf_address, octet_ok; cbn; lia).
  split; [exact Hip |]. repeat (split; [lia |]).
  destruct (longer_prefix_nests (ipv4 10 11 12 13) 8 24 Hip ltac:(lia) ltac:(lia) ltac:(lia))
    as (np & bp & nq & bq & Hnp & _ & Hnq & _ & Hle & _).
  exists np, nq. repeat (split; [assumption |]). exact Hle.
Defined.

(** X15.  Unless the prefix length is 31, the host range and the host count
    agree: the range is not empty and holds exactly [get_num_hosts]
    addresses.  For a prefix length of at most 30 it lies strictly between
    the network and the broadcast address. *)
Theorem host_range_holds_num_hosts a :
  wf_analyzer a -> IPAnalyzer.get_cidr a <> 31 ->
  exists first last hosts network broadcast,
    IPAnalyzer.get_host_range a = Ok (first, last)
    /\ IPAnalyzer.get_num_hosts a = Ok hosts
    /\ IPAnalyzer.get_network a = Ok network
    /\ IPAnalyzer.get_broadcast a = Ok broadcast
    /\ IPv4Address.to_uint32 first <= IPv4Address.to_uint32 last
    /\ IPv4Address.to_uint32 last - IPv4Address.to_uint32 first + 1 = hosts
    /\ (IPAnalyzer.get_cidr a <= 30 ->
          IPv4Address.to_uint32 network < IPv4Address.to_uint32 first
          /\ IPv4Address.to_uint32 last < IPv4Address.to_uint32 broadcast).
Proof.
  unfold IPAnalyzer.get_cidr. intros Hwf H31. pose proof Hwf as [Hip Hp].
  destruct (Z.eq_dec (IPAnalyzer.cidr_ a) 32) as [H32 | H32].
  - destruct (host_range_32 a Hwf H32) as (Hn & Hb & Hr).
    exists (IPAnalyzer.ip_ a), (IPAnalyzer.ip_ a), 1, (IPAnalyzer.ip_ a), (IPAnalyzer.ip_ a).
    rewrite get_num_hosts_value, H32 by assumption.
    repeat (split; [first [assumption | reflexivity | lia] |]). lia.
  - destruct (host_range_below_32 a Hwf H32) as (n & b & Hn & Hb & Hr & Rn & Rb).
    destruct (block_values a Hwf)
      as (n' & _ & b' & Hn' & _ & _ & _ & Hb' & _ & Vn & _ & Vb).
    rewrite Hn in Hn'. rewrite Hb in Hb'. injection Hn' as <-. injection Hb' as <-.
    pose proof (host_count_low_bound (IPAnalyzer.cidr_ a) ltac:(lia)) as Hcount.
    rewrite host_count_low in Hcount by lia.
    assert (Rn' : 0 <= IPv4Address.to_uint32 n + 1 < 2 ^ 32).
    { pose proof (mod_host_bits_range a Hwf). lia. }
    assert (Rb' : 0 <= IPv4Address.to_uint32 b - 1 < 2 ^ 32).
    { pose proof (mod_host_bits_range a Hwf). pose proof (stored_value_range a Hwf).
      pose proof (block_size_pos a Hwf).
      assert (IPv4Address.to_uint32 b < 2 ^ 32); [| lia].
      destruct (get_broadcast_value a Hwf) as (b'' & Hb'' & Wb & _).
      rewrite Hb in Hb''. injection Hb'' as <-. now apply to_uint32_range_wf. }
    do 2 eexists. exists (host_count (IPAnalyzer.cidr_ a)), n, b.
    split; [exact Hr |]. split; [now apply get_num_hosts_value |].
    split; [assumption |]. split; [assumption |].
    rewrite !to_uint32_of_uint32 by assumption.
    rewrite host_count_low by lia.
    repeat split; lia.
Qed.

Lemma host_range_holds_num_hosts_witness :
  wf_analyzer (analyzer (ipv4 192 168 178 0) 24)
  /\ IPAnalyzer.get_cidr (analyzer (ipv4 192 168 178 0) 24) <> 31
  /\ exists first last hosts,
       IPAnalyzer.get_host_range (analyzer (ipv4 192 168 178 0) 24) = Ok (first, last)
       /\ IPAnalyzer.get_num_hosts (analyzer (ipv4 192 168 178 0) 24) = Ok hosts
       /\ IPv4Address.to_uint32 last - IPv4Address.to_uint32 first + 1 = hosts.
Proof.
  assert (Hwf : wf_analyzer (analyzer (ipv4 192 168 178 0) 24))
    by (unfold wf_analyzer, wf_address, octet_ok; cbn; lia).
  assert (H31 : IPAnalyzer.get_cidr (analyzer (ipv4 192 168 178 0) 24) <> 31)
    by (cbn; lia).
  split; [exact Hwf |]. split; [exact H31 |].
  destruct (host_range_holds_num_hosts _ Hwf H31)
    as (first & last & hosts & n & b & Hr & Hh & _ & _ & _ & Hcount & _).
  exists first, last, hosts. repeat (split; [assumption |]). exact Hcount.
Defined.

Section PrivateBlocks.

Lemma block_within_range m x lo hi :
  0 < m -> lo mod m = 0 -> (hi + 1) mod m = 0 -> lo <= x <= hi ->
  lo <= x - x mod m /\ x - x mod m + (m - 1) <= hi.
Proof.
  intros Hm Hlo Hhi Hx. rewrite (floor_multiple m Hm).
  pose proof (Z.div_mod lo m ltac:(lia)) as Elo.
  pose proof (Z.div_mod (hi + 1) m ltac:(lia)) as Ehi.
  rewrite Hlo in Elo. rewrite Hhi in Ehi.
  assert (lo / m <= x / m) by (apply Z.div_le_mono; lia).
  assert (x / m < (hi + 1) / m) by (apply Z.div_lt_upper_bound; lia).
  split; nia.
Qed.

Lemma mod_pow2_coarser v k : 0 <= k <= 16 -> v mod 2 ^ 16 = 0 -> v mod 2 ^ k = 0.
Proof.
  intros Hk Hv. pose proof (Z.div_mod v (2 ^ 16) ltac:(lia)) as E.
  rewrite Hv in E.
  replace (2 ^ 16) with (2 ^ (16 - k) * 2 ^ k) in E
    by (rewrite <- Z.pow_add_r by lia; f_equal; lia).
  replace v with (2 ^ (16 - k) * (v / (2 ^ (16 - k) * 2 ^ k)) * 2 ^ k) by lia.
  apply Z.mod_mul. apply Z.pow_nonzero; lia.
Qed.

End PrivateBlocks.

(** X16.  With a prefix length of 16 or more, the whole network of a private
    address is private: every address from the network address to the
    broadcast address, both included, is reported private by [is_private],
    whatever prefix length it is then given. *)
Theorem private_network_stays_private a y q :
  wf_analyzer a -> wf_address y ->
  IPAnalyzer.is_private a = true -> 16 <= IPAnalyzer.get_cidr a ->
  exists network broadcast,
    IPAnalyzer.get_network a = Ok network
    /\ IPAnalyzer.get_broadcast a = Ok broadcast
    /\ (IPv4Address.to_uint32 network <= IPv4Address.to_uint32 y
        <= IPv4Address.to_uint32 broadcast ->
        IPAnalyzer.is_private (analyzer y q) = true).
Proof.
  unfold IPAnalyzer.get_cidr. intros Hwf Hy Hpriv Hp.
  destruct (block_values a Hwf)
    as (n & _ & b & Hn & _ & _ & _ & Hb & _ & Vn & _ & Vb).
  exists n, b. split; [assumption |]. split; [assumption |].
  rewrite Vn, Vb. intros Hin.
  pose proof (block_size_pos a Hwf) as [Hm _]. pose proof Hwf as [_ Hrange].
  apply is_private_ranges in Hpriv. cbv zeta in Hpriv.
  apply is_private_ranges. cbv zeta. cbn [analyzer IPAnalyzer.ip_].
  assert (Hk : 0 <= 32 - IPAnalyzer.cidr_ a <= 16) by lia.
  destruct Hpriv as [Hr | [Hr | Hr]];
    apply (block_within_range _ _ _ _ Hm) in Hr;
    try (apply mod_pow2_coarser; [exact Hk | reflexivity]); lia.
Qed.

Lemma private_network_stays_private_witness :
  wf_analyzer (analyzer (ipv4 192 168 7 7) 20) /\ wf_address (ipv4 192 168 15 255)
  /\ IPAnalyzer.is_private (analyzer (ipv4 192 168 7 7) 20) = true
  /\ 16 <= IPAnalyzer.get_cidr (analyzer (ipv4 192 168 7 7) 20)
  /\ IPAnalyzer.is_private (analyzer (ipv4 192 168 15 255) 32) = true.
Proof.
  assert (Hwf : wf_analyzer (analyzer (ipv4 192 168 7 7) 20))
    by (unfold wf_analyzer, wf_address, octet_ok; cbn; lia).
  assert (Hy : wf_address (ipv4 192 168 15 255))
    by (unfold wf_address, octet_ok; cbn; lia).
  assert (Hp : 16 <= IPAnalyzer.get_cidr (analyzer (ipv4 192 168 7 7) 20)) by (cbn; lia).
  split; [exact Hwf |]. split; [exact Hy |]. split; [reflexivity |]. split; [exact Hp |].
  destruct (private_network_stays_private _ (ipv4 192 168 15 255) 32 Hwf Hy eq_refl Hp)
    as (n & b & Hn & Hb & Himp).
  injection Hn as <-. injection Hb as <-.
  apply Himp. cbn. lia.
Defined.

(** * Properties of [main.cc] *)

Definition row_event (row : string * string * string) : Main.event :=
  Main.Row (fst (fst row)) (snd (fst row)) (snd row).

Definition row_label (row : string * string * string) : string := fst (fst row).

Section Program.

Lemma print_rows_output rows : Main.print_rows rows = (map row_event rows, Ok tt).
Proof.
  induction rows as [| [[label value] binary] rows IH]; [reflexivity |].
  cbn [Main.print_rows]. rewrite IH. reflexivity.
Qed.

(** The rows of a well-formed analyzer, whatever host range is passed. *)
Lemma result_rows_ok a first last :
  wf_analyzer a ->
  exists network netmask broadcast,
    IPAnalyzer.get_network a = Ok network
    /\ IPAnalyzer.get_netmask a = Ok netmask
    /\ IPAnalyzer.get_broadcast a = Ok broadcast
    /\ Main.result_rows a first last
       = Ok [("IP Address", IPv4Address.to_string (IPAnalyzer.ip_ a),
              IPv4Address.to_binary_string (IPAnalyzer.ip_ a));
             ("Network Address", IPv4Address.to_string network,
              IPv4Address.to_binary_string network);
             ("Netmask", IPv4Address.to_string netmask,
              IPv4Address.to_binary_string netmask);
             ("CIDR Notation", "/" ++ Cxx.print_int (IPAnalyzer.cidr_ a), "");
             ("Broadcast Address", IPv4Address.to_string broadcast, "");
             ("Usable IP Range",
              if Z.eqb (IPAnalyzer.cidr_ a) 32
              then IPv4Address.to_string (IPAnalyzer.ip_ a)
              else IPv4Address.to_string first ++ " - " ++ IPv4Address.to_string last,
              "");
             ("Number of Hosts", Cxx.print_int (host_count (IPAnalyzer.cidr_ a)), "");
             ("Private IP", if IPAnalyzer.is_private a then "Yes" else "No", "")]%string.
Proof.
  intros Hwf.
  destruct (block_values a Hwf)
    as (n & mask & b & Hn & _ & Hm & _ & Hb & _).
  exists n, mask, b. repeat (split; [assumption |]).
  unfold Main.result_rows.
  rewrite Hn, Hm, Hb, get_num_hosts_value by apply Hwf. reflexivity.
Qed.

Lemma host_range_ok a :
  wf_analyzer a -> exists first last, IPAnalyzer.get_host_range a = Ok (first, last).
Proof.
  intros Hwf. destruct (Z.eq_dec (IPAnalyzer.cidr_ a) 32) as [H32 | H32].
  - destruct (host_range_32 a Hwf H32) as (_ & _ & Hr). eauto.
  - destruct (host_range_below_32 a Hwf H32) as (n & b & _ & _ & Hr & _). eauto.
Qed.

End Program.

(** X17.  The three colour components [copper_gradient] computes for a
    column [i] of the bar, [0 <= i < 80], lie in [0,255] and the clamp at 255
    never cuts: they are the plain quotients, and they fit the bytes of
    [fmt::rgb]. *)
Theorem copper_gradient_in_range i :
  0 <= i < Main.kWidth ->
  let '(r, g, b) := Main.copper_gradient i in
  0 <= r <= 255 /\ 0 <= g <= 255 /\ 0 <= b <= 255
  /\ r = i * 255 / 80 /\ g = (80 - i) * 255 / 80 /\ b = Z.abs (40 - i) * 510 / 80.
Proof.
  unfold Main.copper_gradient, Main.kWidth. intros Hi. cbv zeta.
  change (Z.quot 80 2) with 40.
  rewrite !Z.quot_div_nonneg by lia.
  replace (Z.abs (40 - i) * 2 * 255) with (Z.abs (40 - i) * 510) by lia.
  assert (0 <= i * 255 / 80 <= 255) by (Z.div_mod_to_equations; lia).
  assert (0 <= (80 - i) * 255 / 80 <= 255) by (Z.div_mod_to_equations; lia).
  assert (0 <= Z.abs (40 - i) * 510 / 80 <= 255) by (Z.div_mod_to_equations; lia).
  rewrite !Z.min_r by lia. repeat split; lia.
Qed.

Lemma copper_gradient_in_range_witness :
  0 <= 79 < Main.kWidth /\ Main.copper_gradient 79 = (251, 3, 248).
Proof.
  assert (Hi : 0 <= 79 < Main.kWidth) by (unfold Main.kWidth; lia).
  split; [exact Hi |].
  pose proof (copper_gradient_in_range 79 Hi) as H.
  destruct (Main.copper_gradient 79) as [[r g] b].
  destruct H as (_ & _ & _ & -> & -> & ->). reflexivity.
Defined.

(** X18.  What [Run] does with its input.  When no line can be read it only
    prompts and returns 1.  When the constructor refuses the line it prints
    the prompt and the message of the exception, nothing of a result, and
    returns 1.  When the constructor accepts the line it prints the prompt,
    the header between two bars, eight rows with the labels below and a
    closing bar, and returns 0: after a successful construction no
    derivation fails. *)
Theorem Run_outcome :
  Main.Run None
  = ([Main.Prompt "Enter IP address with CIDR (e.g., 192.168.0.1/24): "], Ok 1)
  /\ (forall line e,
        IPAnalyzer.of_string line = Throw e ->
        Main.Run (Some line)
        = ([Main.Prompt "Enter IP address with CIDR (e.g., 192.168.0.1/24): ";
            Main.ErrorLine (Main.what e)], Ok 1))
  /\ (forall line a,
        IPAnalyzer.of_string line = Ok a ->
        exists rows,
          map row_label rows
          = ["IP Address"; "Network Address"; "Netmask"; "CIDR Notation";
             "Broadcast Address"; "Usable IP Range"; "Number of Hosts";
             "Private IP"]%string
          /\ Main.Run (Some line)
             = ((Main.Prompt "Enter IP address with CIDR (e.g., 192.168.0.1/24): "
                 :: Main.CopperBar :: Main.Header "IP Analysis Results"
                 :: Main.CopperBar :: map row_event rows ++ [Main.CopperBar])%list,
                Ok 0)).
Proof.
  split; [reflexivity |]. split.
  - intros line e He. unfold Main.Run. rewrite He.
    destruct (ctor_throws _ _ He) as [[w ->] | ->]; reflexivity.
  - intros line a Ha. pose proof (ctor_wf _ _ Ha) as Hwf.
    destruct (host_range_ok a Hwf) as (first & last & Hr).
    destruct (result_rows_ok a first last Hwf) as (n & mask & b & _ & _ & _ & Hrows).
    eexists. split; [| unfold Main.Run, Main.PrintResults; rewrite Ha].
    2:{ cbn [Main.lift Main.bind_io Main.PrintPrompt Main.PrintHeader
             Main.PrintCopperBar Main.print List.app].
        rewrite Hr. cbn [Main.bind_io Main.lift List.app]. rewrite Hrows.
        cbn [Main.bind_io List.app]. rewrite print_rows_output.
        cbn [Main.bind_io Main.PrintCopperBar Main.print List.app]. reflexivity. }
    reflexivity.
Qed.

Lemma Run_outcome_witness :
  IPAnalyzer.of_string "10.0.0.1" = Throw (invalid_argument "Invalid IP/CIDR format")
  /\ Main.Run (Some "10.0.0.1"%string)
     = ([Main.Prompt "Enter IP address with CIDR (e.g., 192.168.0.1/24): ";
         Main.ErrorLine "Invalid IP/CIDR format"], Ok 1).
Proof.
  split; [reflexivity |].
  exact (proj1 (proj2 Run_outcome) "10.0.0.1"%string _ eq_refl).
Defined.

(** X19.  What the program displays can be typed in again: for every
    well-formed analyzer the value of the row "IP Address" followed by the
    value of the row "CIDR Notation" is an input from which the constructor
    builds the same analyzer, and the binary column of the row "IP Address"
    is the stored address in base 2. *)
Theorem displayed_rows_round_trip a first last :
  wf_analyzer a ->
  exists rows ip_text ip_binary cidr_text,
    Main.result_rows a first last = Ok rows
    /\ nth_error rows 0 = Some ("IP Address"%string, ip_text, ip_binary)
    /\ nth_error rows 3 = Some ("CIDR Notation"%string, cidr_text, EmptyString)
    /\ IPAnalyzer.of_string (ip_text ++ cidr_text) = Ok a
    /\ binary ip_binary = IPv4Address.to_uint32 (IPAnalyzer.get_ip a).
Proof.
  intros Hwf.
  destruct (result_rows_ok a first last Hwf) as (n & mask & b & _ & _ & _ & Hrows).
  do 4 eexists. split; [exact Hrows |].
  split; [reflexivity |]. split; [reflexivity |]. split.
  - now apply wf_analyzer_constructed.
  - unfold IPAnalyzer.get_ip. rewrite to_uint32_be_value by apply Hwf.
    destruct Hwf as [(H0 & H1 & H2 & H3) _]. unfold octet_ok in *.
    unfold IPv4Address.to_binary_string, binary, be_value.
    rewrite !binary_from_app, !binary_from_bitset.
    change (2 ^ Z.of_nat 8) with 256. rewrite !Z.mod_small by lia.
    change (2 ^ 24) with 16777216. change (2 ^ 16) with 65536. change (2 ^ 8) with 256.
    ring.
Qed.

Lemma displayed_rows_round_trip_witness :
  wf_analyzer (analyzer (ipv4 192 168 0 1) 24)
  /\ exists rows,
       Main.result_rows (analyzer (ipv4 192 168 0 1) 24) (ipv4 0 0 0 0) (ipv4 0 0 0 0)
       = Ok rows
       /\ nth_error rows 3 = Some ("CIDR Notation", "/24", "")%string.
Proof.
  assert (Hwf : wf_analyzer (analyzer (ipv4 192 168 0 1) 24))
    by (unfold wf_analyzer, wf_address, octet_ok; cbn; lia).
  split; [exact Hwf |].
  destruct (displayed_rows_round_trip _ (ipv4 0 0 0 0) (ipv4 0 0 0 0) Hwf)
    as (rows & ipt & ipb & ct & Hrows & _ & H3 & _).
  exists rows. split; [exact Hrows |].
  injection Hrows as <-. reflexivity.
Defined.
